(** * Smart-farm controller (smartfarm.py): model and verified properties

    The controller of [smartfarm.py] samples temperature and humidity,
    switches a fan and a water pump with a two-sided threshold rule,
    keeps the last hundred observations and summarises them.

    Python's [float] is IEEE 754 binary64; it is modelled by Rocq's
    primitive [float], whose operations are the same binary64 operations
    (round to nearest, ties to even).  Methods that mutate [self] and
    print are functions in a small state-and-output monad; exceptions are
    a sum type. *)

From Stdlib Require Import ZArith List Bool Lia String.
From Stdlib Require Import Floats.
Import ListNotations.

(** ** Python built-ins used by the controller *)

Module Py.

Local Open Scope float_scope.

Inductive exn : Type :=
| ValueError
| ZeroDivisionError.

Definition result (A : Type) : Type := (exn + A)%type.

(** [x > y] and [x < y] on floats; both are false when an operand is
    NaN. *)
Definition gt (x y : float) : bool := y <? x.
Definition lt (x y : float) : bool := x <? y.

(** [min(a, b)] and [max(a, b)]: the first argument is kept unless the
    second one is strictly smaller (resp. larger).  Where the source
    passes the integers 15, 45, 20, 90 the equal floats stand for them. *)
Definition min2 (a b : float) : float := if lt b a then b else a.
Definition max2 (a b : float) : float := if gt b a then b else a.

(** [max(l)] and [min(l)] over a list: left to right, the candidate is
    replaced by a strictly better item; [ValueError] on the empty list. *)
Definition max_list (l : list float) : result float :=
  match l with
  | [] => inl ValueError
  | x :: tl => inr (fold_left max2 tl x)
  end.

Definition min_list (l : list float) : result float :=
  match l with
  | [] => inl ValueError
  | x :: tl => inr (fold_left min2 tl x)
  end.

(** [float(n)] for an integer [n]: the nearest binary64 value. *)
Definition float_of_int (n : Z) : float :=
  SF2Prim (binary_normalize prec emax n 0 false).

(** [sum(l)] before CPython 3.12: the items are added left to right
    to the start value 0.  An item that is an int adds as the equal
    float does. *)
Definition sum (l : list float) : float := fold_left add l 0.

(** [sum(l)] from CPython 3.12 on.  An item is a pair: whether it is a
    Python [int], and its value; an int is given by the equal float.
    Leading ints are added up as integers, which the float additions
    here equal as long as they are exact (the ints of the controller
    are the bounds 15, 45, 20 and 90, at most a hundred of them); the
    first float is added to that total; from there on the loop keeps,
    beside the running total,
    a compensation (Neumaier's variant of Kahan summation) that
    collects what each addition of a float loses:
    [fabs(total) >= fabs(x)] chooses the operand whose low bits the
    step recovers.  An int in that loop is added without a compensation
    step.  The state is the total, the compensation, and whether a
    float has been met. *)
Definition neumaier (acc : float * float * bool) (item : bool * float) :
  float * float * bool :=
  let '(total, lost, started) := acc in
  let '(whole, x) := item in
  let t := total + x in
  if whole then (t, lost, started)
  else if started
       then (t,
             if abs x <=? abs total
             then lost + ((total - t) + x)
             else lost + ((x - t) + total),
             true)
       else (t, lost, true).

(** At the end the compensation is added when it is finite and not
    zero. *)
Definition sum_compensated (items : list (bool * float)) : float :=
  let '(total, lost, _) := fold_left neumaier items (0, 0, false) in
  if negb (lost =? 0) && is_finite lost then total + lost else total.

(** [x / n] for a float [x] and an integer [n]. *)
Definition truediv (x : float) (n : Z) : result float :=
  if (n =? 0)%Z then inl ZeroDivisionError else inr (x / float_of_int n).

(** Nearest integer to [a / b] for [0 < b], ties to the even one. *)
Definition div_half_even (a b : Z) : Z :=
  let q := (a / b)%Z in
  match (2 * (a mod b) ?= b)%Z with
  | Lt => q
  | Gt => (q + 1)%Z
  | Eq => if Z.even q then q else (q + 1)%Z
  end.

(** Nearest integer to [10 * m * 2^e], ties to even: the digits that
    [round(x, 1)] keeps of [|x| = m * 2^e]. *)
Definition tenths (m : positive) (e : Z) : Z :=
  match e with
  | Zneg p => div_half_even (10 * Zpos m) (2 ^ Zpos p)
  | _ => (10 * Zpos m * 2 ^ e)%Z
  end.

(** [round(x, 1)]: CPython rounds the exact binary value of [x] to one
    decimal (ties to even) and converts that decimal back to the
    nearest binary64 value, keeping the sign; infinities and NaN round
    to themselves. *)
Definition round1 (x : float) : float :=
  match Prim2SF x with
  | S754_finite s m e =>
      match tenths m e with
      | Zpos n =>
          SF2Prim (SFdiv prec emax (S754_finite s n 0) (S754_finite false 10 0))
      | _ => SF2Prim (S754_zero s)
      end
  | _ => x
  end.

End Py.

(** ** Data model *)

(** [class SensorData]: one logged observation. *)
Record SensorData : Type := mkSensorData {
  timestamp : string;
  temperature : float;
  humidity : float;
  fan_status : bool;
  pump_status : bool
}.

(** The attributes of a [SmartFarmController] instance. *)
Record SmartFarmController : Type := mkController {
  temp_threshold : float;
  humidity_threshold : float;
  fan_running : bool;
  pump_running : bool;
  data_log : list SensorData;
  current_temp : float;
  current_humidity : float
}.

(** Attribute assignments [self.x = v]. *)
Definition set_temp_threshold (v : float) (c : SmartFarmController) :=
  mkController v (humidity_threshold c) (fan_running c) (pump_running c)
    (data_log c) (current_temp c) (current_humidity c).
Definition set_humidity_threshold (v : float) (c : SmartFarmController) :=
  mkController (temp_threshold c) v (fan_running c) (pump_running c)
    (data_log c) (current_temp c) (current_humidity c).
Definition set_fan_running (v : bool) (c : SmartFarmController) :=
  mkController (temp_threshold c) (humidity_threshold c) v (pump_running c)
    (data_log c) (current_temp c) (current_humidity c).
Definition set_pump_running (v : bool) (c : SmartFarmController) :=
  mkController (temp_threshold c) (humidity_threshold c) (fan_running c) v
    (data_log c) (current_temp c) (current_humidity c).
Definition set_data_log (v : list SensorData) (c : SmartFarmController) :=
  mkController (temp_threshold c) (humidity_threshold c) (fan_running c)
    (pump_running c) v (current_temp c) (current_humidity c).
Definition set_current_temp (v : float) (c : SmartFarmController) :=
  mkController (temp_threshold c) (humidity_threshold c) (fan_running c)
    (pump_running c) (data_log c) v (current_humidity c).
Definition set_current_humidity (v : float) (c : SmartFarmController) :=
  mkController (temp_threshold c) (humidity_threshold c) (fan_running c)
    (pump_running c) (data_log c) (current_temp c) v.

(** The lines the modelled methods print, one constructor per [print]
    call: the two transitions of each device, and the two outcomes of
    the settings dialogue. *)
Inductive message : Type :=
| FanOn            (* control_fan: fan switched on *)
| FanOff           (* control_fan: fan switched off *)
| PumpOn           (* control_pump: pump switched on *)
| PumpOff          (* control_pump: pump switched off *)
| SettingsUpdated  (* main, choice 3: settings were updated *)
| InvalidValue.    (* main, choice 3: except ValueError *)

(** ** Methods as state transformers that also print *)

Definition Farm (A : Type) : Type :=
  SmartFarmController -> A * SmartFarmController * list message.

Definition ret {A} (a : A) : Farm A := fun c => (a, c, []).

Definition bind {A B} (m : Farm A) (k : A -> Farm B) : Farm B :=
  fun c =>
    let '(a, c1, out1) := m c in
    let '(b, c2, out2) := k a c1 in
    (b, c2, out1 ++ out2).

Definition self : Farm SmartFarmController := fun c => (c, c, []).
Definition assign (f : SmartFarmController -> SmartFarmController) : Farm unit :=
  fun c => (tt, f c, []).
Definition print (m : message) : Farm unit := fun c => (tt, c, [m]).

(** What a method leaves behind. *)
Definition value {A} (r : A * SmartFarmController * list message) : A :=
  fst (fst r).
Definition after {A} (r : A * SmartFarmController * list message) :
  SmartFarmController := snd (fst r).
Definition printed {A} (r : A * SmartFarmController * list message) :
  list message := snd r.

Declare Scope farm_scope.
Delimit Scope farm_scope with farm.
Notation "'do' x <- m ; k" := (bind m (fun x => k))
  (at level 10, x name, m at level 100, k at level 200) : farm_scope.
Notation "m >> k" := (bind m (fun _ => k))
  (at level 65, right associativity) : farm_scope.
Local Open Scope farm_scope.

(** [SmartFarmController.__init__] (its banner lines are left out). *)
Definition init : SmartFarmController :=
  {| temp_threshold := 30.0;
     humidity_threshold := 40.0;
     fan_running := false;
     pump_running := false;
     data_log := [];
     current_temp := 25.0;
     current_humidity := 45.0 |}.

(** [control_fan(self, turn_on)] *)
Definition control_fan (turn_on : bool) : Farm unit :=
  do c <- self;
  if turn_on && negb (fan_running c) then
    assign (set_fan_running true) >> print FanOn
  else if negb turn_on && fan_running c then
    assign (set_fan_running false) >> print FanOff
  else ret tt.

(** [control_pump(self, turn_on)] *)
Definition control_pump (turn_on : bool) : Farm unit :=
  do c <- self;
  if turn_on && negb (pump_running c) then
    assign (set_pump_running true) >> print PumpOn
  else if negb turn_on && pump_running c then
    assign (set_pump_running false) >> print PumpOff
  else ret tt.

(** [make_control_decisions(self, temperature, humidity)]; the widths of
    the two bands are the literals 2 and 10 of the source. *)
Definition make_control_decisions (temperature humidity : float) : Farm unit :=
  (do c <- self;
   if Py.gt temperature (temp_threshold c) then control_fan true
   else if Py.lt temperature (temp_threshold c - 2)%float then control_fan false
   else ret tt) >>
  (do c <- self;
   if Py.lt humidity (humidity_threshold c) then control_pump true
   else if Py.gt humidity (humidity_threshold c + 10)%float then control_pump false
   else ret tt).

(** [read_sensors(self)].  The two calls of [random.uniform] are the
    arguments [temp_draw] (drawn from [-2, 3]) and [humidity_draw]
    (drawn from [-5, 8]); 0.1 is the binary64 value nearest to one
    tenth. *)
Definition read_sensors (temp_draw humidity_draw : float) : Farm (float * float) :=
  do c <- self;
  let temp_variation :=
    if fan_running c then (temp_draw - 2)%float else temp_draw in
  let humidity_variation :=
    if pump_running c then (humidity_draw + 5)%float else humidity_draw in
  assign (set_current_temp
            (current_temp c + temp_variation * 0x1.999999999999ap-4)%float) >>
  assign (set_current_humidity
            (current_humidity c + humidity_variation * 0x1.999999999999ap-4)%float) >>
  do c <- self;
  assign (set_current_temp (Py.max2 15 (Py.min2 45 (current_temp c)))) >>
  do c <- self;
  assign (set_current_humidity (Py.max2 20 (Py.min2 90 (current_humidity c)))) >>
  do c <- self;
  ret (Py.round1 (current_temp c), Py.round1 (current_humidity c)).

(** [list.pop(0)] as used by [log_data]: the list without its first
    item (the source calls it on lists of more than 100 items only). *)
Definition pop0 {A} (l : list A) : list A :=
  match l with
  | [] => []
  | _ :: tl => tl
  end.

(** [log_data(self, temperature, humidity)]; [now] is the text that
    [datetime.datetime.now().strftime(...)] gives at the call. *)
Definition log_data (now : string) (temperature humidity : float) : Farm unit :=
  do c <- self;
  let data :=
    {| timestamp := now;
       temperature := temperature;
       humidity := humidity;
       fan_status := fan_running c;
       pump_status := pump_running c |} in
  assign (set_data_log (data_log c ++ [data])) >>
  do c <- self;
  if (100 <? List.length (data_log c))%nat then assign (set_data_log (pop0 (data_log c)))
  else ret tt.

(** The values of the dictionary [get_statistics] returns. *)
Inductive number : Type :=
| Float (x : float)
| Int (n : Z).

(** A [dict] with string keys, in insertion order. *)
Definition dict : Type := list (string * number).

Fixpoint lookup (k : string) (d : dict) : option number :=
  match d with
  | [] => None
  | (k', v) :: tl => if String.eqb k k' then Some v else lookup k tl
  end.

(** [sum(1 for data in log if flag(data))] *)
Definition count_where (flag : SensorData -> bool) (log : list SensorData) : Z :=
  fold_left (fun acc data => if flag data then (acc + 1)%Z else acc) log 0%Z.

(** [get_statistics(self)]; it reads [self.data_log] only.  The error
    branches are those of the built-ins it calls. *)
Definition get_statistics (c : SmartFarmController) : Py.result dict :=
  match data_log c with
  | [] => inr []
  | _ =>
      let temps := map temperature (data_log c) in
      let humids := map humidity (data_log c) in
      match Py.truediv (Py.sum temps) (Z.of_nat (List.length temps)) with
      | inl e => inl e
      | inr mean_temp =>
      match Py.max_list temps with
      | inl e => inl e
      | inr max_temp =>
      match Py.min_list temps with
      | inl e => inl e
      | inr min_temp =>
      match Py.truediv (Py.sum humids) (Z.of_nat (List.length humids)) with
      | inl e => inl e
      | inr mean_humidity =>
      match Py.max_list humids with
      | inl e => inl e
      | inr max_humidity =>
      match Py.min_list humids with
      | inl e => inl e
      | inr min_humidity =>
          inr [ ("avg_temp", Float (Py.round1 mean_temp));
                ("max_temp", Float max_temp);
                ("min_temp", Float min_temp);
                ("avg_humidity", Float (Py.round1 mean_humidity));
                ("max_humidity", Float max_humidity);
                ("min_humidity", Float min_humidity);
                ("fan_runtime", Int (count_where fan_status (data_log c)));
                ("pump_runtime", Int (count_where pump_status (data_log c)));
                ("total_records", Int (Z.of_nat (List.length (data_log c)))) ]%string
      end end end end end end
  end.

(** The items of a list of readings as [sum] meets them: [whole i]
    tells whether reading number [i] is a Python int.  [read_sensors]
    returns an int where [max(15, min(45, ...))] has put one of its
    integer bounds in place of the value, so such readings can be in
    the log; the record keeps the equal float. *)
Definition mark (whole : nat -> bool) (l : list float) : list (bool * float) :=
  combine (map whole (seq 0 (List.length l))) l.

(** [get_statistics(self)] under CPython 3.12 or later: the same method
    with the built-in [sum] of those versions; [whole_temp] and
    [whole_humidity] mark the readings of the log that are ints. *)
Definition get_statistics_compensated (whole_temp whole_humidity : nat -> bool)
           (c : SmartFarmController) : Py.result dict :=
  match data_log c with
  | [] => inr []
  | _ =>
      let temps := map temperature (data_log c) in
      let humids := map humidity (data_log c) in
      match Py.truediv (Py.sum_compensated (mark whole_temp temps))
                       (Z.of_nat (List.length temps)) with
      | inl e => inl e
      | inr mean_temp =>
      match Py.max_list temps with
      | inl e => inl e
      | inr max_temp =>
      match Py.min_list temps with
      | inl e => inl e
      | inr min_temp =>
      match Py.truediv (Py.sum_compensated (mark whole_humidity humids))
                       (Z.of_nat (List.length humids)) with
      | inl e => inl e
      | inr mean_humidity =>
      match Py.max_list humids with
      | inl e => inl e
      | inr max_humidity =>
      match Py.min_list humids with
      | inl e => inl e
      | inr min_humidity =>
          inr [ ("avg_temp", Float (Py.round1 mean_temp));
                ("max_temp", Float max_temp);
                ("min_temp", Float min_temp);
                ("avg_humidity", Float (Py.round1 mean_humidity));
                ("max_humidity", Float max_humidity);
                ("min_humidity", Float min_humidity);
                ("fan_runtime", Int (count_where fan_status (data_log c)));
                ("pump_runtime", Int (count_where pump_status (data_log c)));
                ("total_records", Int (Z.of_nat (List.length (data_log c)))) ]%string
      end end end end end end
  end.

(** The interpreter decides which [sum] the method runs with: CPython
    before 3.12, or 3.12 and later. *)
Inductive interpreter : Type :=
| Before312
| From312.

Definition builtin_sum (v : interpreter) (whole : nat -> bool)
           (l : list float) : float :=
  match v with
  | Before312 => Py.sum l
  | From312 => Py.sum_compensated (mark whole l)
  end.

Definition statistics (v : interpreter) (whole_temp whole_humidity : nat -> bool)
           (c : SmartFarmController) : Py.result dict :=
  match v with
  | Before312 => get_statistics c
  | From312 => get_statistics_compensated whole_temp whole_humidity c
  end.

(** What the operator typed at one prompt of the settings dialogue, by
    what [input(...).strip()] and [float(...)] make of it. *)
Inductive typed : Type :=
| Blank               (* empty text: keep the value *)
| Number (x : float)  (* text that [float] accepts, and its value *)
| Garbage.            (* text on which [float] raises ValueError *)

(** [main], branch [choice == '3'], from the two [input] calls on: the
    assignments run in order inside one [try], and [except ValueError]
    prints the complaint. *)
Definition change_settings (new_temp new_humidity : typed) : Farm unit :=
  match new_temp with
  | Garbage => print InvalidValue
  | _ =>
      (match new_temp with
       | Number x => assign (set_temp_threshold x)
       | _ => ret tt
       end) >>
      match new_humidity with
      | Garbage => print InvalidValue
      | Number x => assign (set_humidity_threshold x) >> print SettingsUpdated
      | Blank => print SettingsUpdated
      end
  end.

(** How a call of [input] in the settings branch ends: with the text
    typed, as [typed] classifies it once stripped, or with an exception.
    End of input raises EOFError, Ctrl+C raises KeyboardInterrupt, and
    bytes that do not decode raise UnicodeDecodeError, which is a
    ValueError. *)
Inductive keyboard : Type :=
| Typed (t : typed)
| EndOfInput
| Interrupt
| Undecodable.

(** The lines that the settings branch and the handlers of [main]'s
    loop behind it can print; a prompt is what [input] writes before it
    reads. *)
Inductive dialogue_line : Type :=
| CurrentSettings                  (* the title, line 235 *)
| TempThresholdIs (x : float)      (* line 236 *)
| HumidityThresholdIs (x : float)  (* line 237 *)
| AskTemp                          (* the prompt of line 240 *)
| AskHumidity                      (* the prompt of line 241 *)
| Outcome (m : message)            (* lines 248 and 250 *)
| ErrorReport                      (* [except Exception], line 275 *)
| Farewell.                        (* [except KeyboardInterrupt], line 272 *)

Record dialogue_result : Type := mkDialogueResult {
  settled : SmartFarmController;
  dialogue : list dialogue_line;
  menu_continues : bool
}.

(** [main], branch [choice == '3'], whole, with the two handlers of the
    menu loop around it.  The three header lines come first; both
    [input] calls are made before anything is assigned, so an exception
    at a prompt leaves the controller as it was: a ValueError is caught
    by the branch's own handler, KeyboardInterrupt ends the menu loop
    and any other exception is reported by the loop, which goes on.
    [second] is how the second call ends if it is made. *)
Definition settings_branch (first second : keyboard)
           (c : SmartFarmController) : dialogue_result :=
  let header :=
    [ CurrentSettings; TempThresholdIs (temp_threshold c);
      HumidityThresholdIs (humidity_threshold c); AskTemp ] in
  let raised (k : keyboard) (so_far : list dialogue_line) :=
    match k with
    | Interrupt => mkDialogueResult c (so_far ++ [Farewell]) false
    | Undecodable => mkDialogueResult c (so_far ++ [Outcome InvalidValue]) true
    | _ => mkDialogueResult c (so_far ++ [ErrorReport]) true
    end in
  match first with
  | Typed new_temp =>
      match second with
      | Typed new_humidity =>
          let r := change_settings new_temp new_humidity c in
          mkDialogueResult (after r)
                           (header ++ [AskHumidity] ++ map Outcome (printed r))
                           true
      | _ => raised second (header ++ [AskHumidity])
      end
  | _ => raised first header
  end.

(** [main], branch [choice == '2'] without its status display: one
    measurement, decision and log entry. *)
Definition single_cycle (temp_draw humidity_draw : float) (now : string) : Farm unit :=
  do r <- read_sensors temp_draw humidity_draw;
  make_control_decisions (fst r) (snd r) >>
  log_data now (fst r) (snd r).

(** ** The specification's decision rule

    These definitions follow the words of the specification, not the
    source: its [Thresholds] value has two hysteresis fields, and its
    decision engine is a function of a reading, the thresholds and the
    current actuator state. *)

Module Spec.

Record Thresholds : Type := mkThresholds {
  temp_threshold : float;
  temp_hysteresis : float;
  humidity_threshold : float;
  humidity_hysteresis : float
}.

(** Fan rule, then pump rule; the result is (fan_on, pump_on). *)
Definition decide (temperature humidity : float) (th : Thresholds)
           (fan_on pump_on : bool) : bool * bool :=
  (if Py.gt temperature (temp_threshold th) then true
   else if Py.lt temperature (temp_threshold th - temp_hysteresis th)%float
        then false
        else fan_on,
   if Py.lt humidity (humidity_threshold th) then true
   else if Py.gt humidity (humidity_threshold th + humidity_hysteresis th)%float
        then false
        else pump_on).

End Spec.

(** The thresholds a controller works with: its two attributes, and the
    band widths that [make_control_decisions] has as literals. *)
Definition effective_thresholds (c : SmartFarmController) : Spec.Thresholds :=
  {| Spec.temp_threshold := temp_threshold c;
     Spec.temp_hysteresis := 2;
     Spec.humidity_threshold := humidity_threshold c;
     Spec.humidity_hysteresis := 10 |}.

(** The controller with the two thresholds of [th]; the source has no
    attribute that could take its hysteresis fields. *)
Definition with_thresholds (th : Spec.Thresholds) (c : SmartFarmController) :
  SmartFarmController :=
  set_humidity_threshold (Spec.humidity_threshold th)
    (set_temp_threshold (Spec.temp_threshold th) c).

(** A run of decisions over successive (temperature, humidity) readings,
    as the monitoring loop makes them one per cycle. *)
Definition drive (readings : list (float * float)) (c : SmartFarmController) :
  SmartFarmController :=
  fold_left (fun c r => after (make_control_decisions (fst r) (snd r) c))
            readings c.

(** [logged c entries]: the controller [c] has been reached from one with
    an empty log, and [entries] are the records that the calls of
    [log_data] on the way have built, oldest first.  Anything else that
    happens on the way leaves the log alone. *)
Inductive logged : SmartFarmController -> list SensorData -> Prop :=
| logged_start c :
    data_log c = [] -> logged c []
| logged_append c entries now temperature humidity :
    logged c entries ->
    logged (after (log_data now temperature humidity c))
           (entries ++ [mkSensorData now temperature humidity
                                     (fan_running c) (pump_running c)])
| logged_other c c' entries :
    logged c entries -> data_log c' = data_log c -> logged c' entries.

(** The binary64 value of the one-decimal number [n / 10], and a check
    that all of these for [n] from [first], [count] of them, lie between
    [lo] and [hi]. *)
Definition decimal (n : positive) : float :=
  SF2Prim (SFdiv prec emax (S754_finite false n 0) (S754_finite false 10 0)).

Definition decimals_within (lo hi : float) (first count : nat) : bool :=
  forallb (fun k => let d := decimal (Pos.of_nat k) in
                    (lo <=? d)%float && (d <=? hi)%float)
          (seq first count).

(** [max(lo, min(hi, x))] as [read_sensors] writes it. *)
Definition clamp (lo hi x : float) : float := Py.max2 lo (Py.min2 hi x).

(** [greatest m l]: [m] is an item of [l] that no item exceeds, and
    that is at least every item when none of them is NaN; [least] is
    the mirror image. *)
Definition greatest (m : float) (l : list float) : Prop :=
  In m l
  /\ (forall x, In x l -> (m <? x)%float = false)
  /\ ((forall x, In x l -> is_nan x = false) ->
      forall x, In x l -> (x <=? m)%float = true).

Definition least (m : float) (l : list float) : Prop :=
  In m l
  /\ (forall x, In x l -> (x <? m)%float = false)
  /\ ((forall x, In x l -> is_nan x = false) ->
      forall x, In x l -> (m <=? x)%float = true).

(** A controller whose log holds two observations, for examples. *)
Definition two_records : SmartFarmController :=
  set_data_log [ mkSensorData "09:00:00" 25.5 45.5 false false;
                 mkSensorData "09:00:05" 31.0 39.5 true true ] init.

(** ** The rest of the controller: display, cycles, the monitoring loop *)

(** What [display_status(self, temperature, humidity)] prints: the clock
    text of its title line, the two values with their warning marks
    (temperature above its threshold, humidity below its threshold),
    and the ON/OFF state of the two devices.  It changes nothing. *)
Record StatusDisplay : Type := mkStatusDisplay {
  shown_clock : string;
  shown_temperature : float;
  temperature_warning : bool;
  shown_humidity : float;
  humidity_warning : bool;
  fan_shown_on : bool;
  pump_shown_on : bool
}.

(** [display_status(self, temperature, humidity)]; [clock] is the text
    of [datetime.datetime.now().strftime('%H:%M:%S')] at the call. *)
Definition display_status (clock : string) (temperature humidity : float)
           (c : SmartFarmController) : StatusDisplay :=
  {| shown_clock := clock;
     shown_temperature := temperature;
     temperature_warning := Py.gt temperature (temp_threshold c);
     shown_humidity := humidity;
     humidity_warning := Py.lt humidity (humidity_threshold c);
     fan_shown_on := fan_running c;
     pump_shown_on := pump_running c |}.

(** What reaches the console in a cycle: a line of one of the methods,
    or a status block. *)
Inductive console : Type :=
| Said (m : message)
| Status (s : StatusDisplay).

(** What one cycle takes from outside: the two random draws of
    [read_sensors], the clock text of [log_data] and the clock text of
    [display_status]. *)
Record cycle_input : Type := mkCycleInput {
  draw_temp : float;
  draw_humidity : float;
  log_clock : string;
  status_clock : string
}.

(** The three calls that [main]'s branch [choice == '2'] and the body
    of the monitoring loop share: read, decide, log.  The reading is
    returned for the display that follows. *)
Definition cycle (i : cycle_input) : Farm (float * float) :=
  do r <- read_sensors (draw_temp i) (draw_humidity i);
  make_control_decisions (fst r) (snd r) >>
  log_data (log_clock i) (fst r) (snd r) >>
  ret r.

(** [main], branch [choice == '2']: one cycle, then the status. *)
Definition manual_cycle (i : cycle_input) (c : SmartFarmController) :
  SmartFarmController * list console :=
  let r := cycle i c in
  (after r,
   map Said (printed r) ++
   [Status (display_status (status_clock i) (fst (value r)) (snd (value r))
                           (after r))]).

(** The [while] loop of [run_monitoring_cycle], run to its end (no
    KeyboardInterrupt): [remaining] iterations are still to do and
    [cycle_count] is the loop counter; the status is shown when the
    counter is a multiple of 10.  [inputs] gives what cycle number
    [cycle_count] takes from outside. *)
Fixpoint monitoring_loop (remaining cycle_count : nat)
         (inputs : nat -> cycle_input) (c : SmartFarmController) :
  SmartFarmController * list console :=
  match remaining with
  | O => (c, [])
  | S remaining' =>
      let i := inputs cycle_count in
      let r := cycle i c in
      let shown :=
        if (cycle_count mod 10 =? 0)%nat
        then [Status (display_status (status_clock i) (fst (value r))
                                     (snd (value r)) (after r))]
        else [] in
      let rest := monitoring_loop remaining' (S cycle_count) inputs (after r) in
      (fst rest, map Said (printed r) ++ shown ++ snd rest)
  end.

(** The loop as [run_monitoring_cycle(self, duration_minutes)] starts
    it: the counter runs from 0 while it is below
    [duration_minutes * 12]. *)
Definition run_monitoring_loop (duration_minutes : Z)
           (inputs : nat -> cycle_input) (c : SmartFarmController) :
  SmartFarmController * list console :=
  monitoring_loop (Z.to_nat (duration_minutes * 12)) 0 inputs c.

(** A record whose values are readings the sensors can return. *)
Definition in_sensor_range (d : SensorData) : bool :=
  ((15 <=? temperature d) && (temperature d <=? 45)
   && (20 <=? humidity d) && (humidity d <=? 90))%float.

(** The lines of [control_fan] and [control_pump] that take the flags
    from [(fan, pump)] to [(fan', pump')]. *)
Definition transitions (fan pump fan' pump' : bool) : list message :=
  (if Bool.eqb fan' fan then [] else [if fan' then FanOn else FanOff]) ++
  (if Bool.eqb pump' pump then [] else [if pump' then PumpOn else PumpOff]).

(** The status blocks among console output. *)
Definition status_blocks (out : list console) : list StatusDisplay :=
  flat_map (fun line => match line with Status s => [s] | Said _ => [] end) out.

(** The keys of the statistics dictionary that [main] and
    [run_monitoring_cycle] index. *)
Definition statistics_keys : list string :=
  [ "avg_temp"; "max_temp"; "min_temp"; "avg_humidity"; "max_humidity";
    "min_humidity"; "fan_runtime"; "pump_runtime"; "total_records" ]%string.

(** Inputs for examples: the same draws in every cycle. *)
Definition steady_inputs (n : nat) : cycle_input :=
  mkCycleInput 3 (-5) "2025-01-01 09:00:00" "09:00:00".

(** ** The specification's words on binary64 values

    These definitions say what "the sum", "clamped" and "rounded to one
    decimal place" mean for binary64 values, in terms of exact integer
    arithmetic and of the binary64 operations alone. *)

(** The exact value of a finite float as a fraction: a numerator and a
    positive denominator, which is a power of two. *)
Definition exact (x : float) : option (Z * Z) :=
  match Prim2SF x with
  | S754_zero _ => Some (0, 1)%Z
  | S754_finite s m e =>
      Some ((if s then Zneg m else Zpos m) * 2 ^ Z.max 0 e,
            2 ^ Z.max 0 (- e))%Z
  | _ => None
  end.

(** [nearest_tenth x k]: [k] is the integer nearest to [10 x], the even
    one where two integers are equally near; [k / 10] is then [x]
    rounded to one decimal place. *)
Definition nearest_tenth (x : float) (k : Z) : Prop :=
  match exact x with
  | Some (p, q) =>
      (2 * Z.abs (10 * p - k * q) <= q)%Z
      /\ ((2 * Z.abs (10 * p - k * q) = q)%Z -> Z.even k = true)
  | None => False
  end.

(** The binary64 value of [n / 10] for a natural number [n], negated
    when [negative]: below 2^53 the quotient of the floats [n] and 10,
    which are both exact; from there on the correctly rounded quotient
    of the integers. *)
Definition tenth (negative : bool) (n : Z) : float :=
  match n with
  | Zpos p =>
      if (n <? 2 ^ 53)%Z
      then let q := (of_uint63 (Uint63Axioms.of_Z n) / 10)%float in
           if negative then (- q)%float else q
      else SF2Prim (SFdiv prec emax (S754_finite negative p 0)
                          (S754_finite false 10 0))
  | _ => if negative then (-0)%float else 0%float
  end.

(** [one_decimal x a]: [a] is [x] rounded to one decimal place, that is
    the binary64 value of [k / 10] for the integer [k] nearest to
    [10 x], with the sign of [x]; zeros, infinities and NaN stay as
    they are. *)
Definition one_decimal (x a : float) : Prop :=
  match Prim2SF x with
  | S754_finite s _ _ =>
      exists k : Z, nearest_tenth x k /\ a = tenth s (Z.abs k)
  | _ => a = x
  end.

(** [clamped lo hi x t]: [t] is [x] limited to the range from [lo] to
    [hi]; a NaN, which no comparison places, ends at [hi]. *)
Definition clamped (lo hi x t : float) : Prop :=
  ((x <? lo)%float = true -> t = lo)
  /\ ((hi <? x)%float = true -> t = hi)
  /\ ((lo <=? x)%float = true -> (x <=? hi)%float = true -> t = x)
  /\ (is_nan x = true -> t = hi).

(** What is lost when [a + b] is rounded: the difference of the exact
    and the rounded sum, recovered from the operand that is larger in
    magnitude. *)
Definition rounding_error (a b : float) : float :=
  (if abs b <=? abs a then (a - (a + b)) + b else (b - (a + b)) + a)%float.

(** Whether the addition of item number [i] is compensated: from
    CPython 3.12 on, when the item is a float and not the first float
    of the list. *)
Definition compensated (v : interpreter) (whole : nat -> bool) (i : nat) : bool :=
  match v with
  | Before312 => false
  | From312 => negb (whole i) && existsb (fun j => negb (whole j)) (seq 0 i)
  end.

(** [running_sum v whole l total lost]: the items of [l], added from
    the left to the start value 0, give [total]; [lost] collects the
    rounding errors of the compensated additions. *)
Inductive running_sum (v : interpreter) (whole : nat -> bool) :
  list float -> float -> float -> Prop :=
| sum_nothing :
    running_sum v whole [] 0%float 0%float
| sum_item l total lost x :
    running_sum v whole l total lost ->
    running_sum v whole (l ++ [x]) (total + x)%float
                (if compensated v whole (List.length l)
                 then (lost + rounding_error total x)%float
                 else lost).

(** The sum that the interpreter returns: the total, and with it what
    was lost when that is finite and not zero. *)
Definition sum_is (v : interpreter) (whole : nat -> bool) (l : list float)
           (s : float) : Prop :=
  exists total lost : float,
    running_sum v whole l total lost
    /\ s = if negb (lost =? 0)%float && is_finite lost
           then (total + lost)%float
           else total.

(** The number of items as a float: exact below 2^53. *)
Definition count_to_float (n : nat) : float :=
  if (Z.of_nat n <? 2 ^ 63)%Z
  then of_uint63 (Uint63Axioms.of_Z (Z.of_nat n))
  else SF2Prim (binary_normalize prec emax (Z.of_nat n) 0 false).

(** [average v whole l a]: [a] is the mean of [l], the sum divided by
    the number of items in binary64, rounded to one decimal place. *)
Definition average (v : interpreter) (whole : nat -> bool) (l : list float)
           (a : float) : Prop :=
  exists total : float,
    sum_is v whole l total
    /\ one_decimal (total / count_to_float (List.length l))%float a.

(** A positive number shifted left until it has 53 bits, as the
    conversion to binary64 stores it. *)
Definition left_aligned (n : positive) : positive :=
  match (53 - Zpos (digits2_pos n))%Z with
  | Zpos p => shift_pos p n
  | _ => n
  end.

(** ** The monitoring loop, cycle by cycle *)

(** The controller after the first [n] cycles of a run. *)
Fixpoint after_cycles (n : nat) (inputs : nat -> cycle_input)
         (c : SmartFarmController) : SmartFarmController :=
  match n with
  | O => c
  | S n' => after (cycle (inputs n') (after_cycles n' inputs c))
  end.

(** The status block of cycle number [j] of a run: the reading of that
    cycle and the controller as the cycle leaves it. *)
Definition status_in_cycle (inputs : nat -> cycle_input)
           (c : SmartFarmController) (j : nat) : StatusDisplay :=
  let r := cycle (inputs j) (after_cycles j inputs c) in
  display_status (status_clock (inputs j)) (fst (value r)) (snd (value r))
                 (after r).

(** The line that ends the settings branch. *)
Definition closing_line (first second : keyboard) : dialogue_line :=
  match first, second with
  | Typed Garbage, Typed _ => Outcome InvalidValue
  | Typed _, Typed Garbage => Outcome InvalidValue
  | Typed _, Typed _ => Outcome SettingsUpdated
  | Typed _, Interrupt => Farewell
  | Typed _, Undecodable => Outcome InvalidValue
  | Typed _, EndOfInput => ErrorReport
  | Interrupt, _ => Farewell
  | Undecodable, _ => Outcome InvalidValue
  | EndOfInput, _ => ErrorReport
  end.

(** * The model on concrete inputs *)

(** Values that CPython gives for the same calls: [round(0.25, 1)] is
    0.2 and [round(0.75, 1)] is 0.8 (ties go to the even digit),
    [round(44.96875, 1)] is 45.0. *)
Example round1_values :
  map Py.round1 [0.25; 0.75; -0.25; 0.125; 25.0625; 44.96875]%float
  = [2 / 10; 8 / 10; - (2 / 10); 1 / 10; 251 / 10; 45]%float.
Proof. vm_compute. reflexivity. Qed.

Example round1_not_finite :
  Py.round1 infinity = infinity /\ Py.round1 nan = nan.
Proof. vm_compute. split; reflexivity. Qed.

(** [max(15, min(45, x))] on NaN and on the infinities. *)
Example clamp_not_finite :
  map (clamp 15 45) [nan; infinity; neg_infinity] = [45; 45; 15]%float.
Proof. vm_compute. reflexivity. Qed.

(** A fresh controller and the draws 3 and 8: the reading is
    (25.3, 45.8). *)
Example read_sensors_fresh :
  value (read_sensors 3 8 init) = (253 / 10, 458 / 10)%float.
Proof. vm_compute. reflexivity. Qed.

Example statistics_two_records :
  get_statistics two_records =
  inr [ ("avg_temp", Float (282 / 10));
        ("max_temp", Float 31);
        ("min_temp", Float 25.5);
        ("avg_humidity", Float 42.5);
        ("max_humidity", Float 45.5);
        ("min_humidity", Float 39.5);
        ("fan_runtime", Int 1);
        ("pump_runtime", Int 1);
        ("total_records", Int 2) ]%string.
Proof. vm_compute. reflexivity. Qed.

(** The two built-in sums differ: ten times 0.1 add up to
    0.9999999999999999 before CPython 3.12 and to 1.0 from then on;
    a small float beside a large one survives the compensated sum; an
    int in its place is added without compensation and is lost. *)
Example sum_by_interpreter :
  let floats := fun _ : nat => false in
  let dimes := repeat (1 / 10)%float 10 in
  builtin_sum Before312 floats dimes = 0x1.fffffffffffffp-1%float
  /\ builtin_sum From312 floats dimes = 1%float
  /\ builtin_sum From312 floats [0x1p60; 1; - 0x1p60]%float = 1%float
  /\ builtin_sum Before312 floats [0x1p60; 1; - 0x1p60]%float = 0%float
  /\ builtin_sum From312 (fun i => Nat.eqb i 1) [0x1p60; 1; - 0x1p60]%float
     = 0%float.
Proof. vm_compute. repeat split; reflexivity. Qed.

(** So can the average: the temperatures 26.7, 25.1, 21.5, 18.9 have
    the mean 23.05; the plain sum ends just below the tie and gives
    23.0, the compensated sum ends on the other side and gives 23.1. *)
Example average_by_interpreter :
  let floats := fun _ : nat => false in
  let c := set_data_log
             [ mkSensorData "09:00:00" (267 / 10) (450 / 10) false false;
               mkSensorData "09:00:05" (251 / 10) (450 / 10) false false;
               mkSensorData "09:00:10" (215 / 10) (450 / 10) false false;
               mkSensorData "09:00:15" (189 / 10) (450 / 10) false false ]
             init in
  match statistics Before312 floats floats c,
        statistics From312 floats floats c with
  | inr before, inr from =>
      lookup "avg_temp" before = Some (Float 23)
      /\ lookup "avg_temp" from = Some (Float (231 / 10))
  | _, _ => False
  end.
Proof. vm_compute. split; reflexivity. Qed.

(** One manual cycle on a fresh controller with the draws 3 and 8:
    nothing is switched at 25.3 degrees and 45.8 percent, and the
    record holds the reading with both devices off. *)
Example single_cycle_fresh :
  data_log (after (single_cycle 3 8 "09:00:00" init)) =
  [ mkSensorData "09:00:00" (253 / 10) (458 / 10) false false ].
Proof. vm_compute. reflexivity. Qed.

(** Two minutes of monitoring, 24 cycles: the status is shown in the
    cycles 0, 10 and 20. *)
Example monitoring_two_minutes :
  let shown := status_blocks (snd (run_monitoring_loop 2 steady_inputs init)) in
  shown = [ status_in_cycle steady_inputs init 0;
            status_in_cycle steady_inputs init 10;
            status_in_cycle steady_inputs init 20 ]
  /\ map shown_temperature shown = [253 / 10; 283 / 10; 30.5]%float.
Proof. vm_compute. split; reflexivity. Qed.

(** The settings branch on a fresh controller: 28 typed for the
    temperature and text that is no number for the humidity. *)
Example settings_branch_refused :
  let r := settings_branch (Typed (Number 28)) (Typed Garbage) init in
  dialogue r = [ CurrentSettings; TempThresholdIs 30; HumidityThresholdIs 40;
                 AskTemp; AskHumidity; Outcome InvalidValue ]
  /\ temp_threshold (settled r) = 28%float
  /\ humidity_threshold (settled r) = 40%float
  /\ menu_continues r = true.
Proof. vm_compute. repeat split; reflexivity. Qed.

(** * Facts about binary64 comparisons *)

Section SpecFloatOrder.

Ltac by_cases :=
  unfold SFleb, SFltb, SFcompare;
  repeat match goal with
         | x : spec_float |- _ => destruct x as [[]|[]| |[] ? ?]
         end;
  simpl; try congruence; intros;
  repeat match goal with
         | H : context [(?a ?= ?b)%Z] |- _ => destruct (Z.compare_spec a b)
         | H : context [Pos.compare_cont Eq ?a ?b] |- _ =>
             change (Pos.compare_cont Eq a b) with (Pos.compare a b) in H;
             destruct (Pos.compare_spec a b)
         | |- context [(?a ?= ?b)%Z] => destruct (Z.compare_spec a b)
         | |- context [Pos.compare_cont Eq ?a ?b] =>
             change (Pos.compare_cont Eq a b) with (Pos.compare a b);
             destruct (Pos.compare_spec a b)
         end;
  simpl in *; try congruence; try lia.

Lemma SFltb_asym a b : SFltb a b = true -> SFltb b a = false.
Proof. revert a b. intros a b. by_cases. Qed.

Lemma SFleb_not_gt a b : SFleb a b = true -> SFltb b a = false.
Proof. revert a b. intros a b. by_cases. Qed.

Lemma SFltb_beyond a b c :
  SFltb a b = true -> SFltb a c = false -> SFltb b c = false.
Proof. revert a b c. intros a b c. by_cases. Qed.

Lemma SFltb_before a b c :
  SFltb b a = true -> SFltb c a = false -> SFltb c b = false.
Proof. revert a b c. intros a b c. by_cases. Qed.

Lemma SFleb_total a b :
  a <> S754_nan -> b <> S754_nan -> SFltb a b = false -> SFleb b a = true.
Proof. revert a b. intros a b. by_cases. Qed.

Lemma SFltb_positive m1 e1 m2 e2 :
  SFltb (S754_finite false m1 e1) (S754_finite false m2 e2) = true ->
  (e1 < e2)%Z \/ (e1 = e2 /\ (Zpos m1 < Zpos m2)%Z).
Proof.
  unfold SFltb, SFcompare.
  change (Pos.compare_cont Eq m1 m2) with (Pos.compare m1 m2).
  destruct (Z.compare_spec e1 e2); [destruct (Pos.compare_spec m1 m2) | | ];
    intros; try discriminate; lia.
Qed.

(** A float compares equal to itself unless it is NaN. *)
Lemma SFeqb_refl a : a <> S754_nan -> SFeqb a a = true.
Proof.
  unfold SFeqb, SFcompare. destruct a as [[]|[]| |[] m e]; try congruence;
    intros _; rewrite Z.compare_refl;
    change (Pos.compare_cont Eq m m) with (Pos.compare m m);
    rewrite Pos.compare_refl; reflexivity.
Qed.

(** What compares equal to a finite, non-zero float is that float. *)
Lemma SFcompare_finite_eq a s m e :
  SFcompare a (S754_finite s m e) = Some Eq
  \/ SFcompare (S754_finite s m e) a = Some Eq ->
  a = S754_finite s m e.
Proof.
  unfold SFcompare.
  destruct a as [[]|[]| |s' m' e']; try (now intros [H|H]; destruct s; discriminate).
  assert (Hcore : (e' ?= e)%Z = Eq -> Pos.compare_cont Eq m' m = Eq ->
                  S754_finite s m' e' = S754_finite s m e).
  { intros He Hm. apply Z.compare_eq in He. apply Pos.compare_eq in Hm.
    now subst. }
  intros [H|H]; destruct s, s'; try discriminate.
  - destruct (e' ?= e)%Z eqn:He; try discriminate.
    destruct (Pos.compare_cont Eq m' m) eqn:Hm; try discriminate. now apply Hcore.
  - destruct (e' ?= e)%Z eqn:He; try discriminate.
    destruct (Pos.compare_cont Eq m' m) eqn:Hm; try discriminate. now apply Hcore.
  - rewrite Z.compare_antisym in H.
    destruct (e' ?= e)%Z eqn:He; try discriminate.
    change (Pos.compare_cont Eq m m') with (Pos.compare m m') in H.
    rewrite Pos.compare_antisym in H.
    change (Pos.compare_cont Eq m' m) with (Pos.compare m' m) in Hcore.
    destruct (Pos.compare m' m) eqn:Hm; try discriminate. now apply Hcore.
  - rewrite Z.compare_antisym in H.
    destruct (e' ?= e)%Z eqn:He; try discriminate.
    change (Pos.compare_cont Eq m m') with (Pos.compare m m') in H.
    rewrite Pos.compare_antisym in H.
    change (Pos.compare_cont Eq m' m) with (Pos.compare m' m) in Hcore.
    destruct (Pos.compare m' m) eqn:Hm; try discriminate. now apply Hcore.
Qed.

End SpecFloatOrder.

Section FloatOrder.

Local Open Scope float_scope.

Lemma ltb_asym x y : (x <? y) = true -> (y <? x) = false.
Proof. rewrite 2!ltb_spec. apply SFltb_asym. Qed.

Lemma leb_not_gt x y : (x <=? y) = true -> (y <? x) = false.
Proof. rewrite leb_spec, ltb_spec. apply SFleb_not_gt. Qed.

(** Nothing exceeds [y] if nothing exceeds the smaller [x]... *)
Lemma ltb_beyond x y z :
  (x <? y) = true -> (x <? z) = false -> (y <? z) = false.
Proof. rewrite 3!ltb_spec. apply SFltb_beyond. Qed.

(** ...and nothing is below [y] if nothing is below the larger [x]. *)
Lemma ltb_before x y z :
  (y <? x) = true -> (z <? x) = false -> (z <? y) = false.
Proof. rewrite 3!ltb_spec. apply SFltb_before. Qed.

Lemma ltb_irrefl x : (x <? x) = false.
Proof.
  destruct (x <? x) eqn:E; [ | reflexivity].
  rewrite <- E. now apply ltb_asym.
Qed.

Lemma not_nan x : is_nan x = false -> Prim2SF x <> S754_nan.
Proof.
  unfold is_nan. rewrite eqb_spec. intros H Hnan. rewrite Hnan in H.
  discriminate.
Qed.

Lemma leb_total x y :
  is_nan x = false -> is_nan y = false -> (x <? y) = false ->
  (y <=? x) = true.
Proof.
  intros Hx Hy. rewrite ltb_spec, leb_spec.
  apply SFleb_total; now apply not_nan.
Qed.

(** A float that is at most a finite, non-zero one and not below it is
    that float. *)
Lemma leb_not_ltb_left x y s m e :
  Prim2SF y = S754_finite s m e ->
  (x <=? y) = true -> (x <? y) = false -> x = y.
Proof.
  rewrite leb_spec, ltb_spec. unfold SFleb, SFltb. intros Hy Hle Hlt.
  apply Prim2SF_inj. rewrite Hy. apply SFcompare_finite_eq. left.
  rewrite Hy in *.
  destruct (SFcompare (Prim2SF x) (S754_finite s m e)) as [[]|];
    congruence.
Qed.

Lemma leb_not_ltb_right x y s m e :
  Prim2SF x = S754_finite s m e ->
  (x <=? y) = true -> (x <? y) = false -> y = x.
Proof.
  rewrite leb_spec, ltb_spec. unfold SFleb, SFltb. intros Hx Hle Hlt.
  apply Prim2SF_inj. rewrite Hx. apply SFcompare_finite_eq. right.
  rewrite Hx in *.
  destruct (SFcompare (S754_finite s m e) (Prim2SF y)) as [[]|];
    congruence.
Qed.

(** A NaN is below nothing. *)
Lemma nan_ltb x y : is_nan x = true -> (x <? y) = false.
Proof.
  unfold is_nan. rewrite eqb_spec, ltb_spec. intros H.
  destruct (Prim2SF x) as [[]|[]| |[] m e] eqn:Hx; try reflexivity;
    rewrite SFeqb_refl in H by discriminate; discriminate.
Qed.

End FloatOrder.

(** * The actuators *)

Lemma set_fan_running_same c : set_fan_running (fan_running c) c = c.
Proof. destruct c; reflexivity. Qed.

Lemma set_pump_running_same c : set_pump_running (pump_running c) c = c.
Proof. destruct c; reflexivity. Qed.

(** [control_fan] in one equation: the flag takes the commanded value,
    and a line is printed exactly when that is a change. *)
Lemma control_fan_run turn_on c :
  control_fan turn_on c =
  (tt, set_fan_running turn_on c,
   if Bool.eqb turn_on (fan_running c) then []
   else [if turn_on then FanOn else FanOff]).
Proof.
  unfold control_fan, bind, self, assign, print, ret.
  destruct turn_on, (fan_running c) eqn:E; simpl; try reflexivity;
    rewrite <- E, set_fan_running_same; reflexivity.
Qed.

Lemma control_pump_run turn_on c :
  control_pump turn_on c =
  (tt, set_pump_running turn_on c,
   if Bool.eqb turn_on (pump_running c) then []
   else [if turn_on then PumpOn else PumpOff]).
Proof.
  unfold control_pump, bind, self, assign, print, ret.
  destruct turn_on, (pump_running c) eqn:E; simpl; try reflexivity;
    rewrite <- E, set_pump_running_same; reflexivity.
Qed.

(** C10.  Whatever the command and the controller, [control_fan] leaves
    the pump flag, both thresholds, the simulated environment and the
    log as they were, and [control_pump] does the same with the fan flag
    in place of the pump flag; the flag each one owns ends as commanded. *)
Theorem control_frame (turn_on : bool) (c : SmartFarmController) :
  (let c' := after (control_fan turn_on c) in
   fan_running c' = turn_on
   /\ pump_running c' = pump_running c
   /\ temp_threshold c' = temp_threshold c
   /\ humidity_threshold c' = humidity_threshold c
   /\ current_temp c' = current_temp c
   /\ current_humidity c' = current_humidity c
   /\ data_log c' = data_log c)
  /\
  (let c' := after (control_pump turn_on c) in
   pump_running c' = turn_on
   /\ fan_running c' = fan_running c
   /\ temp_threshold c' = temp_threshold c
   /\ humidity_threshold c' = humidity_threshold c
   /\ current_temp c' = current_temp c
   /\ current_humidity c' = current_humidity c
   /\ data_log c' = data_log c).
Proof.
  rewrite control_fan_run, control_pump_run. cbn.
  repeat split; reflexivity.
Qed.

(** C5.  Commanding the fan and the pump to a desired state prints one
    line for each device whose flag changes; the same command given
    again prints nothing and leaves the controller as it is; and a
    command for the state a device is already in returns the controller
    untouched with no output. *)
Theorem control_idempotent (fan pump : bool) (c : SmartFarmController) :
  let first := (control_fan fan >> control_pump pump) c in
  let second := (control_fan fan >> control_pump pump) (after first) in
  printed first =
    (if Bool.eqb fan (fan_running c) then []
     else [if fan then FanOn else FanOff]) ++
    (if Bool.eqb pump (pump_running c) then []
     else [if pump then PumpOn else PumpOff])
  /\ fan_running (after first) = fan
  /\ pump_running (after first) = pump
  /\ printed second = []
  /\ after second = after first
  /\ control_fan (fan_running c) c = (tt, c, [])
  /\ control_pump (pump_running c) c = (tt, c, []).
Proof.
  cbv zeta. unfold bind.
  rewrite !control_fan_run, !control_pump_run. cbn.
  rewrite !Bool.eqb_reflx, !set_fan_running_same, !set_pump_running_same.
  repeat split; reflexivity.
Qed.

(** * The decision rule *)

Lemma make_control_decisions_run temperature humidity c :
  let fan' := fst (Spec.decide temperature humidity (effective_thresholds c)
                               (fan_running c) (pump_running c)) in
  let pump' := snd (Spec.decide temperature humidity (effective_thresholds c)
                                (fan_running c) (pump_running c)) in
  after (make_control_decisions temperature humidity c) =
  set_pump_running pump' (set_fan_running fan' c).
Proof.
  unfold make_control_decisions, Spec.decide, effective_thresholds.
  unfold bind at 1. unfold bind at 1. unfold self at 1.
  cbn [fst snd Spec.temp_threshold Spec.temp_hysteresis
       Spec.humidity_threshold Spec.humidity_hysteresis].
  destruct (Py.gt temperature (temp_threshold c));
    [ | destruct (Py.lt temperature (temp_threshold c - 2)) ];
    rewrite ?control_fan_run; unfold ret at 1; unfold bind, self;
    cbn [humidity_threshold pump_running set_fan_running];
    (destruct (Py.lt humidity (humidity_threshold c));
     [ | destruct (Py.gt humidity (humidity_threshold c + 10)) ]);
    rewrite ?control_pump_run; unfold ret, after; cbn [fst snd];
    rewrite ?set_fan_running_same;
    try reflexivity;
    try (rewrite <- (set_pump_running_same c) at 1; reflexivity).
  all: destruct c; reflexivity.
Qed.

Lemma fan_after_decision temperature humidity c :
  fan_running (after (make_control_decisions temperature humidity c)) =
  if Py.gt temperature (temp_threshold c) then true
  else if Py.lt temperature (temp_threshold c - 2)%float then false
       else fan_running c.
Proof. rewrite make_control_decisions_run. reflexivity. Qed.

Lemma pump_after_decision temperature humidity c :
  pump_running (after (make_control_decisions temperature humidity c)) =
  if Py.lt humidity (humidity_threshold c) then true
  else if Py.gt humidity (humidity_threshold c + 10)%float then false
       else pump_running c.
Proof. rewrite make_control_decisions_run. reflexivity. Qed.

(** C1, as the source has it.  For every reading and controller the
    decision step leaves the fan on when the temperature is above the
    temperature threshold, otherwise off when it is below the threshold
    minus 2, otherwise as it was; and the pump on when the humidity is
    below the humidity threshold, otherwise off when it is above the
    threshold plus 10, otherwise as it was.  The widths 2 and 10 are
    fixed: this is the specification's rule at hysteresis 2 and 10. *)
Theorem decision_rule (temperature humidity : float) (c : SmartFarmController) :
  let c' := after (make_control_decisions temperature humidity c) in
  fan_running c' =
    (if Py.gt temperature (temp_threshold c) then true
     else if Py.lt temperature (temp_threshold c - 2)%float then false
          else fan_running c)
  /\ pump_running c' =
    (if Py.lt humidity (humidity_threshold c) then true
     else if Py.gt humidity (humidity_threshold c + 10)%float then false
          else pump_running c)
  /\ (fan_running c', pump_running c') =
     Spec.decide temperature humidity (effective_thresholds c)
                 (fan_running c) (pump_running c).
Proof.
  cbv zeta. rewrite fan_after_decision, pump_after_decision.
  repeat split; reflexivity.
Qed.

(** C1 as stated fails: with a temperature hysteresis of 5 in the
    thresholds (threshold 30, fan on) a reading of 27 degrees is inside
    the specification's band, so the fan should stay on; the source has
    no place for the 5 and switches the fan off below 28. *)
Lemma decision_ignores_hysteresis_field :
  let th := Spec.mkThresholds 30 5 40 10 in
  let c := with_thresholds th (set_fan_running true init) in
  fst (Spec.decide 27 45 th (fan_running c) (pump_running c)) = true
  /\ fan_running (after (make_control_decisions 27 45 c)) = false.
Proof. vm_compute. split; reflexivity. Qed.

(** C8.  With thresholds 30 and 40 (bands of 2 and 10) and both devices
    off, the readings (32.0, 35.0), (31.0, 45.0), (27.0, 52.0) lead to
    fan and pump on, then still on, then both off. *)
Theorem example_scenario :
  let c1 := after (make_control_decisions 32.0 35.0 init) in
  let c2 := after (make_control_decisions 31.0 45.0 c1) in
  let c3 := after (make_control_decisions 27.0 52.0 c2) in
  effective_thresholds init = Spec.mkThresholds 30 2 40 10
  /\ (fan_running init, pump_running init) = (false, false)
  /\ (fan_running c1, pump_running c1) = (true, true)
  /\ (fan_running c2, pump_running c2) = (true, true)
  /\ (fan_running c3, pump_running c3) = (false, false).
Proof. vm_compute. repeat split; reflexivity. Qed.

(** * Hysteresis of the fan *)

Lemma drive_keeps_temp_threshold readings : forall c,
  temp_threshold (drive readings c) = temp_threshold c.
Proof.
  induction readings as [|r readings IH]; intros c; [reflexivity|].
  cbn [drive fold_left]. fold (drive readings). rewrite IH.
  rewrite make_control_decisions_run. reflexivity.
Qed.

Lemma fan_stays_on_step temperature humidity c :
  fan_running c = true ->
  Py.lt temperature (temp_threshold c - 2)%float = false ->
  fan_running (after (make_control_decisions temperature humidity c)) = true.
Proof.
  intros Hon Hlow. rewrite fan_after_decision, Hlow, Hon.
  destruct (Py.gt temperature (temp_threshold c)); reflexivity.
Qed.

Lemma fan_stays_on_drive readings : forall c,
  fan_running c = true ->
  Forall (fun r => Py.lt (fst r) (temp_threshold c - 2)%float = false) readings ->
  fan_running (drive readings c) = true.
Proof.
  induction readings as [|r readings IH]; intros c Hon Hall; [exact Hon|].
  inversion Hall as [|? ? Hr Hrest]; subst.
  cbn [drive fold_left]. fold (drive readings). apply IH.
  - now apply fan_stays_on_step.
  - rewrite make_control_decisions_run. exact Hrest.
Qed.

(** C4, as the source has it: the width of the band is the literal 2,
    not a hysteresis H of the thresholds.  While no reading is below the
    temperature threshold minus 2, a fan that is on is still on after
    every number of decisions; and a reading in the band, above the
    threshold minus 2 and not above the threshold, leaves the fan as it
    was. *)
Theorem fan_hysteresis :
  (forall (c : SmartFarmController) (readings : list (float * float)) (k : nat),
      fan_running c = true ->
      Forall (fun r => Py.lt (fst r) (temp_threshold c - 2)%float = false)
             readings ->
      fan_running (drive (firstn k readings) c) = true)
  /\
  (forall (c : SmartFarmController) (temperature humidity : float),
      (temp_threshold c - 2 <? temperature)%float = true ->
      (temperature <=? temp_threshold c)%float = true ->
      fan_running (after (make_control_decisions temperature humidity c)) =
      fan_running c).
Proof.
  split.
  - intros c readings k Hon Hall. apply fan_stays_on_drive; [exact Hon|].
    rewrite Forall_forall in *. intros r Hr. apply Hall.
    rewrite <- (firstn_skipn k readings). apply in_or_app. left. exact Hr.
  - intros c temperature humidity Hlo Hhi.
    rewrite fan_after_decision. unfold Py.gt, Py.lt.
    rewrite (leb_not_gt _ _ Hhi), (ltb_asym _ _ Hlo). reflexivity.
Qed.

(** The fan comes on at 31 degrees and stays on through 29.5 and 28.0
    (threshold 30); 29.5 is in the band. *)
Lemma fan_hysteresis_witness :
  fan_running
    (drive (firstn 2 [(29.5, 45); (28.0, 45)]%float)
           (after (make_control_decisions 31 45 init))) = true
  /\ fan_running (after (make_control_decisions 29.5 45 init)) =
     fan_running init.
Proof.
  split.
  - apply (proj1 fan_hysteresis).
    + vm_compute. reflexivity.
    + repeat constructor.
  - apply (proj2 fan_hysteresis); vm_compute; reflexivity.
Defined.

(** C4 as stated fails: with T = 30 and H = 5 in the thresholds the
    fan comes on at 31 degrees; the next reading, 27 degrees, is not
    below T - H = 25 and lies in the band (25, 30], so the fan should
    stay on; the source has no place for the 5 and switches the fan
    off, because 27 is below 30 - 2. *)
Lemma fan_band_is_two_wide :
  let th := Spec.mkThresholds 30 5 40 10 in
  let c := with_thresholds th init in
  let on := after (make_control_decisions 31 45 c) in
  Py.gt 31 (Spec.temp_threshold th) = true
  /\ fan_running on = true
  /\ Py.lt 27 (Spec.temp_threshold th - Spec.temp_hysteresis th)%float = false
  /\ Py.gt 27 (Spec.temp_threshold th - Spec.temp_hysteresis th)%float = true
  /\ (27 <=? Spec.temp_threshold th)%float = true
  /\ fan_running (after (make_control_decisions 27 45 on)) = false.
Proof. vm_compute. repeat split; reflexivity. Qed.

(** * The history log *)

Lemma log_data_run now temperature humidity c :
  let data := mkSensorData now temperature humidity
                           (fan_running c) (pump_running c) in
  after (log_data now temperature humidity c) =
  set_data_log (if (100 <? List.length (data_log c ++ [data]))%nat
                then pop0 (data_log c ++ [data])
                else data_log c ++ [data]) c.
Proof.
  unfold log_data, bind, self, assign, ret, after. cbn -[Nat.ltb].
  match goal with
  | |- context [(100 <? ?n)%nat] => destruct (100 <? n)%nat
  end; reflexivity.
Qed.

Lemma pop0_skipn {A} (l : list A) : pop0 l = skipn 1 l.
Proof. destruct l; reflexivity. Qed.

(** Appending to the last 100 of [entries] and dropping the oldest when
    that makes 101 gives the last 100 of the longer list. *)
Lemma last_hundred_step (entries : list SensorData) (data : SensorData) :
  let kept := skipn (List.length entries - 100) entries ++ [data] in
  (if (100 <? List.length kept)%nat then pop0 kept else kept) =
  skipn (List.length (entries ++ [data]) - 100) (entries ++ [data]).
Proof.
  cbv zeta. rewrite !length_app, length_skipn, pop0_skipn. cbn [List.length].
  destruct (100 <? _)%nat eqn:E.
  - apply Nat.ltb_lt in E.
    rewrite !skipn_app, skipn_skipn, length_skipn.
    replace (1 - (List.length entries - (List.length entries - 100))) with 0 by lia.
    replace (List.length entries + 1 - 100 - List.length entries) with 0 by lia.
    replace (1 + (List.length entries - 100)) with (List.length entries + 1 - 100)
      by lia.
    reflexivity.
  - apply Nat.ltb_ge in E.
    replace (List.length entries - 100) with 0 by lia.
    replace (List.length entries + 1 - 100) with 0 by lia.
    reflexivity.
Qed.

Lemma logged_last_hundred c entries :
  logged c entries ->
  data_log c = skipn (List.length entries - 100) entries.
Proof.
  induction 1 as [c H | c entries now t h _ IH | c c' entries _ IH Hsame].
  - exact H.
  - rewrite log_data_run. cbv zeta. cbn [data_log set_data_log].
    rewrite IH. apply last_hundred_step.
  - rewrite Hsame. exact IH.
Qed.

(** C2.  After any number of appends to an empty log, the log holds the
    last 100 appended records in the order of their appending and never
    more than 100; after 100 + k appends these are the records from the
    k-th on.  One append keeps a log of at most 100 within 100, and on a
    full log it drops the oldest record and puts the new one last. *)
Theorem log_is_fifo :
  (forall (c : SmartFarmController) (entries : list SensorData),
      logged c entries ->
      data_log c = skipn (List.length entries - 100) entries
      /\ List.length (data_log c) <= 100
      /\ forall k, List.length entries = 100 + k ->
                   data_log c = skipn k entries
                   /\ List.length (data_log c) = 100)
  /\
  (forall (c : SmartFarmController) (now : string) (temperature humidity : float),
      List.length (data_log c) <= 100 ->
      List.length (data_log (after (log_data now temperature humidity c))) <= 100)
  /\
  (forall (c : SmartFarmController) (now : string) (temperature humidity : float)
          (oldest : SensorData) (rest : list SensorData),
      data_log c = oldest :: rest ->
      List.length (data_log c) = 100 ->
      data_log (after (log_data now temperature humidity c)) =
      rest ++ [mkSensorData now temperature humidity
                            (fan_running c) (pump_running c)]).
Proof.
  split; [ | split ].
  - intros c entries H. apply logged_last_hundred in H.
    assert (Hlen : List.length (data_log c) <= 100)
      by (rewrite H, length_skipn; lia).
    repeat split; trivial.
    + rewrite H. f_equal. lia.
    + rewrite H, length_skipn. lia.
  - intros c now t h Hlen. rewrite log_data_run. cbv zeta.
    cbn [data_log set_data_log].
    destruct (100 <? _)%nat eqn:E.
    + rewrite pop0_skipn, length_skipn, length_app. cbn [List.length]. lia.
    + apply Nat.ltb_ge in E. exact E.
  - intros c now t h oldest rest Hlog Hlen. rewrite log_data_run. cbv zeta.
    cbn [data_log set_data_log]. rewrite length_app, Hlen, Hlog. reflexivity.
Qed.

(** Two appends to a fresh log, and one append to a log of 100 records. *)
Lemma log_is_fifo_witness :
  let first := mkSensorData "09:00:00" 25.5 45.5 false false in
  let second := mkSensorData "09:00:05" 26.5 45.0 false false in
  let c2 := after (log_data "09:00:05" 26.5 45.0
                            (after (log_data "09:00:00" 25.5 45.5 init))) in
  let full := set_data_log (first :: repeat second 99) init in
  (data_log c2 = skipn (List.length [first; second] - 100) [first; second]
   /\ List.length (data_log c2) <= 100
   /\ forall k, List.length [first; second] = 100 + k ->
                data_log c2 = skipn k [first; second]
                /\ List.length (data_log c2) = 100)
  /\ List.length (data_log (after (log_data "09:00:10" 25.0 45.0 full))) <= 100
  /\ data_log (after (log_data "09:00:10" 25.0 45.0 full)) =
     repeat second 99 ++ [mkSensorData "09:00:10" 25.0 45.0 false false].
Proof.
  cbv zeta. split; [ | split ].
  - apply (proj1 log_is_fifo).
    apply (logged_append _ _ "09:00:05" 26.5 45.0
             (logged_append _ _ "09:00:00" 25.5 45.5
                (logged_start init eq_refl))).
  - apply (proj1 (proj2 log_is_fifo)). vm_compute. lia.
  - apply (proj2 (proj2 log_is_fifo)) with
      (oldest := mkSensorData "09:00:00" 25.5 45.5 false false);
      vm_compute; reflexivity.
Defined.

(** * The simulated environment *)

Section Rounding.

Local Open Scope Z_scope.

Lemma div_half_even_between a b lo hi :
  0 < b -> lo * b <= a <= hi * b -> lo <= Py.div_half_even a b <= hi.
Proof.
  intros Hb [Hlo Hhi]. unfold Py.div_half_even.
  pose proof (Z.div_mod a b ltac:(lia)) as Hdm.
  pose proof (Z.mod_pos_bound a b Hb) as Hr.
  set (q := a / b) in *. set (r := a mod b) in *.
  assert (lo <= q) by nia.
  assert (q <= hi) by nia.
  assert (q = hi -> r = 0) by nia.
  destruct (Z.compare_spec (2 * r) b); try destruct (Z.even q); lia.
Qed.

Lemma digits2_pos_size p : digits2_pos p = Pos.size p.
Proof. induction p; simpl; congruence. Qed.

Lemma full_mantissa m :
  digits2_pos m = 53%positive -> 2 ^ 52 <= Zpos m < 2 ^ 53.
Proof.
  rewrite digits2_pos_size. intros H.
  pose proof (Pos.size_gt m) as Hgt. pose proof (Pos.size_le m) as Hle.
  rewrite H in Hgt, Hle.
  apply Pos2Z.pos_lt_pos in Hgt. apply Pos2Z.pos_le_pos in Hle.
  rewrite Pos2Z.inj_pow in Hgt, Hle. rewrite Pos2Z.inj_xO in Hle.
  change (2 ^ 53) with (2 * 2 ^ 52) in *.
  lia.
Qed.

(** A valid positive float above the subnormal range has a mantissa of
    exactly 53 bits. *)
Lemma valid_normal m e :
  valid_binary (S754_finite false m e) = true -> -1074 < e ->
  4503599627370496 <= Zpos m < 9007199254740992.
Proof.
  cbn [SpecFloat.valid_binary]. unfold bounded, canonical_mantissa, fexp.
  intros Hv He. apply andb_true_iff in Hv as [Hc _]. apply Z.eqb_eq in Hc.
  change (SpecFloat.emin prec emax) with (-1074) in Hc.
  change prec with 53 in Hc.
  change 4503599627370496 with (2 ^ 52).
  change 9007199254740992 with (2 ^ 53).
  apply full_mantissa. lia.
Qed.

Lemma decimals_within_spec lo hi first count n :
  decimals_within lo hi first count = true ->
  Z.of_nat first <= Zpos n < Z.of_nat (first + count) ->
  (lo <=? decimal n)%float = true /\ (decimal n <=? hi)%float = true.
Proof.
  unfold decimals_within. rewrite forallb_forall. intros Hall Hn.
  specialize (Hall (Pos.to_nat n)).
  rewrite Pos2Nat.id in Hall. apply andb_true_iff, Hall, in_seq. lia.
Qed.

Lemma round1_positive x m e n :
  Prim2SF x = S754_finite false m e -> Py.tenths m e = Zpos n ->
  Py.round1 x = decimal n.
Proof. intros Hx Hn. unfold Py.round1. rewrite Hx, Hn. reflexivity. Qed.

(** [div_half_even] gives the nearest integer to the quotient, the even
    one at a tie. *)
Lemma div_half_even_nearest a b :
  0 < b ->
  2 * Z.abs (a - Py.div_half_even a b * b) <= b
  /\ (2 * Z.abs (a - Py.div_half_even a b * b) = b ->
      Z.even (Py.div_half_even a b) = true).
Proof.
  intros Hb. unfold Py.div_half_even.
  pose proof (Z.div_mod a b ltac:(lia)) as Hdm.
  pose proof (Z.mod_pos_bound a b Hb) as Hr.
  set (q := a / b) in *. set (r := a mod b) in *.
  destruct (Z.compare_spec (2 * r) b) as [E|E|E].
  - destruct (Z.even q) eqn:Eq.
    + replace (a - q * b) with r by lia. split; [lia | intros _; exact Eq].
    + replace (a - (q + 1) * b) with (r - b) by lia. split; [lia|].
      intros _. rewrite Z.even_add, Eq. reflexivity.
  - replace (a - q * b) with r by lia. split; lia.
  - replace (a - (q + 1) * b) with (r - b) by lia. split; lia.
Qed.

Lemma div_half_even_nonneg a b : 0 <= a -> 0 < b -> 0 <= Py.div_half_even a b.
Proof.
  intros Ha Hb.
  apply (div_half_even_between a b 0 (a + 1)); [exact Hb | nia].
Qed.

Lemma tenths_nonneg m e : 0 <= Py.tenths m e.
Proof.
  unfold Py.tenths. destruct e as [|p|p]; try lia.
  apply div_half_even_nonneg; lia.
Qed.

(** The digits that [round1] keeps are those of the nearest tenth. *)
Lemma tenths_nearest x s m e :
  Prim2SF x = S754_finite s m e ->
  nearest_tenth x (if s then - Py.tenths m e else Py.tenths m e).
Proof.
  intros Hx. unfold nearest_tenth, exact. rewrite Hx.
  assert (Hcore :
    2 * Z.abs (10 * (Zpos m * 2 ^ Z.max 0 e) - Py.tenths m e * 2 ^ Z.max 0 (- e))
      <= 2 ^ Z.max 0 (- e)
    /\ (2 * Z.abs (10 * (Zpos m * 2 ^ Z.max 0 e)
                   - Py.tenths m e * 2 ^ Z.max 0 (- e))
        = 2 ^ Z.max 0 (- e) -> Z.even (Py.tenths m e) = true)).
  { unfold Py.tenths. destruct e as [|p|p].
    - cbn [Z.max Z.opp Z.compare]. change (Z.max 0 (-0)) with 0.
      change (Z.max 0 0) with 0. rewrite Z.pow_0_r. split; lia.
    - replace (Z.max 0 (- Zpos p)) with 0 by lia.
      replace (Z.max 0 (Zpos p)) with (Zpos p) by lia.
      rewrite Z.pow_0_r. split; lia.
    - replace (Z.max 0 (- Zneg p)) with (Zpos p) by lia.
      replace (Z.max 0 (Zneg p)) with 0 by lia.
      rewrite Z.pow_0_r, Z.mul_1_r.
      apply div_half_even_nearest. lia. }
  destruct s.
  - replace (10 * (Zneg m * 2 ^ Z.max 0 e) - - Py.tenths m e * 2 ^ Z.max 0 (- e))
      with (- (10 * (Zpos m * 2 ^ Z.max 0 e)
               - Py.tenths m e * 2 ^ Z.max 0 (- e))) by lia.
    rewrite Z.abs_opp, Z.even_opp. exact Hcore.
  - exact Hcore.
Qed.

(** At most one integer is the nearest tenth of a float. *)
Lemma nearest_tenth_unique x k k' :
  nearest_tenth x k -> nearest_tenth x k' -> k = k'.
Proof.
  unfold nearest_tenth, exact.
  destruct (Prim2SF x) as [s| | |s m e]; try contradiction.
  - intros [H1 _] [H2 _]. lia.
  - set (p := (if s then Zneg m else Zpos m) * 2 ^ Z.max 0 e).
    set (q := 2 ^ Z.max 0 (- e)).
    assert (Hq : 0 < q) by (apply Z.pow_pos_nonneg; lia).
    intros [H1 E1] [H2 E2].
    assert (Hd : Z.abs (k - k') <= 1) by nia.
    destruct (Z.eq_dec k k') as [|Hne]; [assumption|].
    assert (Hk : k' = k + 1 \/ k = k' + 1) by lia.
    assert (T1 : 2 * Z.abs (10 * p - k * q) = q) by nia.
    assert (T2 : 2 * Z.abs (10 * p - k' * q) = q) by nia.
    specialize (E1 T1). specialize (E2 T2).
    destruct Hk as [-> | ->].
    + rewrite Z.even_add, E1 in E2. discriminate.
    + rewrite Z.even_add, E2 in E1. discriminate.
Qed.

Lemma digits2_pos_shift p : forall n,
  digits2_pos (shift_pos p n) = (digits2_pos n + p)%positive.
Proof.
  unfold shift_pos.
  induction p as [p IH | p IH | ]; intros n; cbn [Pos.iter digits2_pos];
    rewrite ?IH; lia.
Qed.

(** A mantissa of 53 bits with an exponent in range needs no rounding. *)
Lemma binary_round_aux_exact s m e :
  digits2_pos m = 53%positive -> -1074 <= e <= 971 ->
  binary_round_aux prec emax s (Zpos m) e loc_Exact = S754_finite s m e.
Proof.
  intros Hd He. unfold binary_round_aux, shr_fexp, fexp, Zdigits2.
  rewrite Hd.
  change (SpecFloat.emin prec emax) with (-1074). change prec with 53.
  change emax with 1024.
  replace (Z.max (53 + e - 53) (-1074) - e) with 0 by lia.
  cbn [shr shr_record_of_loc shr_m loc_of_shr_record round_nearest_even].
  unfold Zdigits2. rewrite Hd.
  replace (Z.max (53 + e - 53) (-1074) - e) with 0 by lia.
  cbn [shr shr_record_of_loc shr_m].
  destruct (Z.leb_spec e (1024 - 53)); [reflexivity | lia].
Qed.

(** Rounding is symmetric in the sign. *)
Lemma binary_round_aux_opp s m e l :
  binary_round_aux prec emax (negb s) m e l =
  SFopp (binary_round_aux prec emax s m e l).
Proof.
  unfold binary_round_aux.
  destruct (shr_fexp prec emax m e l) as [mrs e'].
  destruct (shr_fexp prec emax _ e' loc_Exact) as [mrs' e''].
  destruct (shr_m mrs'); try reflexivity.
  destruct (e'' <=? emax - prec); reflexivity.
Qed.

Lemma left_aligned_value n :
  Zpos (digits2_pos n) <= 53 ->
  Zpos (left_aligned n) = Zpos n * 2 ^ (53 - Zpos (digits2_pos n))
  /\ digits2_pos (left_aligned n) = 53%positive.
Proof.
  intros Hd. unfold left_aligned.
  destruct (53 - Zpos (digits2_pos n)) as [|p|p] eqn:E; try lia.
  rewrite shift_pos_correct, digits2_pos_shift, Z.pow_pos_fold. split; lia.
Qed.

(** The binary64 form of a positive integer below 2^53. *)
Lemma normalize_integer n :
  Zpos (digits2_pos n) <= 53 ->
  binary_normalize prec emax (Zpos n) 0 false =
  S754_finite false (left_aligned n) (Zpos (digits2_pos n) - 53).
Proof.
  intros Hd. destruct (left_aligned_value n Hd) as (_ & Hc).
  unfold binary_normalize, binary_round, shl_align, fexp.
  change (SpecFloat.emin prec emax) with (-1074). change prec with 53.
  replace (Z.max (Zpos (digits2_pos n) + 0 - 53) (-1074))
    with (Zpos (digits2_pos n) - 53) by lia.
  unfold left_aligned in *.
  replace (Zpos (digits2_pos n) - 53 - 0)
    with (- (53 - Zpos (digits2_pos n))) by lia.
  destruct (53 - Zpos (digits2_pos n)) as [|p|p] eqn:E; try lia.
  - cbn [Z.opp]. replace (Zpos (digits2_pos n) - 53) with 0 by lia.
    apply binary_round_aux_exact; [exact Hc | lia].
  - cbn [Z.opp]. fold (shift_pos p n).
    apply binary_round_aux_exact; [exact Hc | lia].
Qed.

Lemma div_eucl_pair a b : Z.div_eucl a b = (a / b, a mod b).
Proof. unfold Z.div, Z.modulo. destruct (Z.div_eucl a b). reflexivity. Qed.

Lemma size_below n : Zpos n < 2 ^ 53 -> Zpos (digits2_pos n) <= 53.
Proof.
  intros Hn. rewrite digits2_pos_size.
  pose proof (Pos.size_le n) as Hle. apply Pos2Z.pos_le_pos in Hle.
  rewrite Pos2Z.inj_pow in Hle. change (Zpos n~0) with (2 * Zpos n) in Hle.
  destruct (Z.le_gt_cases (Zpos (Pos.size n)) 53) as [H|H]; [exact H|].
  pose proof (Z.pow_le_mono_r 2 54 (Zpos (Pos.size n)) ltac:(lia) ltac:(lia)).
  change (2 ^ 54) with (2 * 2 ^ 53) in *. lia.
Qed.

(** Dividing the binary64 forms of [n] and 10 is dividing [n] by 10:
    both are shifted by the same power of two. *)
Lemma div_core_aligned n :
  Zpos (digits2_pos n) <= 53 ->
  SFdiv_core_binary prec emax (Zpos (left_aligned n))
                    (Zpos (digits2_pos n) - 53) 5629499534213120 (-49) =
  SFdiv_core_binary prec emax (Zpos n) 0 10 0.
Proof.
  intros Hd. destruct (left_aligned_value n Hd) as (Hc & Hs).
  unfold SFdiv_core_binary, Zdigits2, fexp. rewrite Hs.
  change (digits2_pos 5629499534213120) with 53%positive.
  change (digits2_pos 10) with 4%positive.
  change (SpecFloat.emin prec emax) with (-1074). change prec with 53.
  set (d := Zpos (digits2_pos n)) in *.
  replace (Z.min (Z.max (53 + (d - 53) - (53 + -49) - 53) (-1074))
                 (d - 53 - -49)) with (d - 57) by lia.
  replace (Z.min (Z.max (d + 0 - (4 + 0) - 53) (-1074)) (0 - 0))
    with (d - 57) by lia.
  replace (d - 53 - -49 - (d - 57)) with 53 by lia.
  replace (0 - 0 - (d - 57)) with (57 - d) by lia.
  assert (Hd0 : 0 < d) by (unfold d; lia).
  destruct (57 - d) as [|p|p] eqn:Ep; try lia. rewrite <- Ep.
  rewrite !Z.shiftl_mul_pow2 by lia. rewrite Hc.
  replace (Zpos n * 2 ^ (53 - d) * 2 ^ 53)
    with (Zpos n * 2 ^ (57 - d) * 2 ^ 49)
    by (rewrite <- !Z.mul_assoc, <- !Z.pow_add_r by lia; do 2 f_equal; lia).
  change 5629499534213120 with (10 * 2 ^ 49).
  rewrite !div_eucl_pair.
  rewrite Z.div_mul_cancel_r by lia.
  rewrite Z.mul_mod_distr_r by lia.
  set (r := (Zpos n * 2 ^ (57 - d)) mod 10).
  unfold new_location.
  change (Z.even (10 * 2 ^ 49)) with true. change (Z.even 10) with true.
  unfold new_location_even.
  assert (Hp : 0 < 2 ^ 49) by lia.
  replace (r * 2 ^ 49 =? 0) with (r =? 0)
    by (destruct (Z.eqb_spec r 0), (Z.eqb_spec (r * 2 ^ 49) 0); nia).
  replace (2 * (r * 2 ^ 49) ?= 10 * 2 ^ 49) with (2 * r ?= 10); [reflexivity|].
  rewrite Z.mul_assoc.
  destruct (Z.compare_spec (2 * r) 10),
    (Z.compare_spec (2 * r * 2 ^ 49) (10 * 2 ^ 49)); try reflexivity; nia.
Qed.

Lemma Prim2SF_10 : Prim2SF 10 = S754_finite false 5629499534213120 (-49).
Proof. vm_compute. reflexivity. Qed.

Lemma of_Z_small n :
  0 <= n < 2 ^ 63 ->
  Prim2SF (of_uint63 (Uint63Axioms.of_Z n)) =
  binary_normalize prec emax n 0 false.
Proof.
  intros Hn. rewrite of_uint63_spec, Uint63.of_Z_spec.
  rewrite Z.mod_small; [reflexivity|]. exact Hn.
Qed.

(** The correctly rounded quotient of the integer [n] by 10 is the
    binary64 quotient of the floats [n] and 10 when [n] is below 2^53. *)
Lemma SFdiv_by_ten n :
  Zpos n < 2 ^ 53 ->
  SFdiv prec emax (S754_finite false n 0) (S754_finite false 10 0) =
  Prim2SF (of_uint63 (Uint63Axioms.of_Z (Zpos n)) / 10)%float.
Proof.
  intros Hn. pose proof (size_below n Hn) as Hd.
  rewrite div_spec, of_Z_small, Prim2SF_10, normalize_integer
    by (try exact Hd; lia).
  unfold SF64div, SFdiv. rewrite div_core_aligned by exact Hd. reflexivity.
Qed.

Lemma SFdiv_by_ten_signed s n :
  Zpos n < 2 ^ 53 ->
  SF2Prim (SFdiv prec emax (S754_finite s n 0) (S754_finite false 10 0)) =
  tenth s (Zpos n).
Proof.
  intros Hn. unfold tenth.
  destruct (Z.ltb_spec (Zpos n) (2 ^ 53)) as [_|H]; [ | lia].
  cbv zeta. destruct s.
  - rewrite <- (SF2Prim_Prim2SF (- _)%float). f_equal.
    rewrite opp_spec, <- SFdiv_by_ten by exact Hn.
    unfold SFdiv. destruct (SFdiv_core_binary _ _ _ _ _ _) as [[mz ez] lz].
    apply (binary_round_aux_opp false).
  - rewrite <- (SF2Prim_Prim2SF (_ / _)%float). f_equal.
    apply SFdiv_by_ten. exact Hn.
Qed.

Lemma decimal_div n :
  Zpos n < 2 ^ 53 ->
  decimal n = (of_uint63 (Uint63Axioms.of_Z (Zpos n)) / 10)%float.
Proof.
  intros Hn. unfold decimal. rewrite SFdiv_by_ten by exact Hn.
  apply SF2Prim_Prim2SF.
Qed.

(** [round1] rounds to one decimal place. *)
Lemma round1_one_decimal x : one_decimal x (Py.round1 x).
Proof.
  unfold one_decimal, Py.round1.
  destruct (Prim2SF x) as [s|s| |s m e] eqn:Hx; try reflexivity.
  exists (if s then - Py.tenths m e else Py.tenths m e).
  split; [now apply tenths_nearest|].
  pose proof (tenths_nonneg m e) as Hk.
  replace (Z.abs (if s then - Py.tenths m e else Py.tenths m e))
    with (Py.tenths m e) by (destruct s; lia).
  destruct (Py.tenths m e) as [|n|n]; try lia.
  - destruct s; reflexivity.
  - destruct (Z.ltb_spec (Zpos n) (2 ^ 53)) as [H|H].
    + now apply SFdiv_by_ten_signed.
    + unfold tenth. destruct (Z.ltb_spec (Zpos n) (2 ^ 53)); [lia|].
      reflexivity.
Qed.

Lemma float_of_int_count n :
  Py.float_of_int (Z.of_nat n) = count_to_float n.
Proof.
  unfold count_to_float, Py.float_of_int.
  destruct (Z.ltb_spec (Z.of_nat n) (2 ^ 63)) as [H|H]; [ | reflexivity].
  rewrite <- of_Z_small by lia. apply SF2Prim_Prim2SF.
Qed.

End Rounding.

Section Bands.

Local Open Scope float_scope.

Lemma Prim2SF_15 : Prim2SF 15 = S754_finite false 8444249301319680 (-49).
Proof. vm_compute. reflexivity. Qed.
Lemma Prim2SF_45 : Prim2SF 45 = S754_finite false 6333186975989760 (-47).
Proof. vm_compute. reflexivity. Qed.
Lemma Prim2SF_20 : Prim2SF 20 = S754_finite false 5629499534213120 (-48).
Proof. vm_compute. reflexivity. Qed.
Lemma Prim2SF_90 : Prim2SF 90 = S754_finite false 6333186975989760 (-46).
Proof. vm_compute. reflexivity. Qed.

Lemma temperature_decimals : decimals_within 15 45 150 301 = true.
Proof. vm_compute. reflexivity. Qed.

Lemma humidity_decimals : decimals_within 20 90 200 701 = true.
Proof. vm_compute. reflexivity. Qed.

(** The proof for one band: [x] lies strictly between two constants
    whose binary exponents are [e0] and [e0 + 2], so it is a normal
    positive float with one of three exponents; in each case the
    tenths of [x] are between [first] and [last], and the table covers
    those. *)
Ltac band x lo_eq hi_eq table e0 first last :=
  rewrite 2!ltb_spec, lo_eq, hi_eq;
  let Hv := fresh "Hv" in
  let Hx := fresh "Hx" in
  let Hlo := fresh "Hlo" in
  let Hhi := fresh "Hhi" in
  let Hn := fresh "Hn" in
  let Hn' := fresh "Hn'" in
  let m := fresh "m" in
  let e := fresh "e" in
  let n := fresh "n" in
  pose proof (Prim2SF_valid x) as Hv;
  destruct (Prim2SF x) as [[]|[]| |[] m e] eqn:Hx; try discriminate;
  intros Hlo Hhi;
  apply SFltb_positive in Hlo, Hhi;
  apply valid_normal in Hv; [ | lia];
  assert (Hn : (first <= Py.tenths m e <= last)%Z)
    by (assert (e = e0 \/ e = (e0 + 1)%Z \/ e = (e0 + 2)%Z)
          as [-> | [-> | ->]] by lia;
        unfold Py.tenths; apply div_half_even_between; try reflexivity;
        match goal with
        | |- context [(2 ^ ?k)%Z] =>
            let v := eval vm_compute in (2 ^ k)%Z in
            change (2 ^ k)%Z with v
        end; lia);
  destruct (Py.tenths m e) as [|n|n] eqn:Hn'; try lia;
  rewrite (round1_positive x m e n Hx Hn');
  apply (decimals_within_spec _ _ _ _ n table); lia.

Lemma round1_temperature_band x :
  (15 <? x) = true -> (x <? 45) = true ->
  (15 <=? Py.round1 x) = true /\ (Py.round1 x <=? 45) = true.
Proof.
  band x Prim2SF_15 Prim2SF_45 temperature_decimals (-49)%Z 150%Z 450%Z.
Qed.

Lemma round1_humidity_band x :
  (20 <? x) = true -> (x <? 90) = true ->
  (20 <=? Py.round1 x) = true /\ (Py.round1 x <=? 90) = true.
Proof.
  band x Prim2SF_20 Prim2SF_90 humidity_decimals (-48)%Z 200%Z 900%Z.
Qed.

(** The same proof, keeping the nearest tenth: the reading is its
    quotient by 10. *)
Ltac band_tenths x lo_eq hi_eq e0 first last :=
  rewrite 2!ltb_spec, lo_eq, hi_eq;
  let Hv := fresh "Hv" in
  let Hx := fresh "Hx" in
  let Hlo := fresh "Hlo" in
  let Hhi := fresh "Hhi" in
  let Hn := fresh "Hn" in
  let Hn' := fresh "Hn'" in
  let m := fresh "m" in
  let e := fresh "e" in
  let n := fresh "n" in
  pose proof (Prim2SF_valid x) as Hv;
  destruct (Prim2SF x) as [[]|[]| |[] m e] eqn:Hx; try discriminate;
  intros Hlo Hhi;
  apply SFltb_positive in Hlo, Hhi;
  apply valid_normal in Hv; [ | lia];
  assert (Hn : (first <= Py.tenths m e <= last)%Z)
    by (assert (e = e0 \/ e = (e0 + 1)%Z \/ e = (e0 + 2)%Z)
          as [-> | [-> | ->]] by lia;
        unfold Py.tenths; apply div_half_even_between; try reflexivity;
        match goal with
        | |- context [(2 ^ ?k)%Z] =>
            let v := eval vm_compute in (2 ^ k)%Z in
            change (2 ^ k)%Z with v
        end; lia);
  destruct (Py.tenths m e) as [|n|n] eqn:Hn'; try lia;
  exists n; split; [ | exact Hn];
  split;
  [ pose proof (tenths_nearest x false m e Hx) as Hk; cbv iota in Hk;
    rewrite Hn' in Hk; exact Hk
  | rewrite (round1_positive x m e n Hx Hn'); apply decimal_div; lia ].

(** Strictly inside the temperature range the reading is [k / 10] for
    the nearest tenth [k], which is between 150 and 450. *)
Lemma reading_temperature_band x :
  (15 <? x) = true -> (x <? 45) = true ->
  exists n : positive,
    (nearest_tenth x (Zpos n)
     /\ Py.round1 x = of_uint63 (Uint63Axioms.of_Z (Zpos n)) / 10)
    /\ (150 <= Zpos n <= 450)%Z.
Proof.
  band_tenths x Prim2SF_15 Prim2SF_45 (-49)%Z 150%Z 450%Z.
Qed.

Lemma reading_humidity_band x :
  (20 <? x) = true -> (x <? 90) = true ->
  exists n : positive,
    (nearest_tenth x (Zpos n)
     /\ Py.round1 x = of_uint63 (Uint63Axioms.of_Z (Zpos n)) / 10)
    /\ (200 <= Zpos n <= 900)%Z.
Proof.
  band_tenths x Prim2SF_20 Prim2SF_90 (-48)%Z 200%Z 900%Z.
Qed.

End Bands.

Section Clamp.

Local Open Scope float_scope.

Lemma ltb_leb x y : (x <? y) = true -> (x <=? y) = true.
Proof.
  rewrite ltb_spec, leb_spec. unfold SFltb, SFleb.
  destruct (SFcompare (Prim2SF x) (Prim2SF y)) as [[]|]; congruence.
Qed.

(** The clamped value is a bound, or the argument strictly inside. *)
Lemma clamp_cases lo hi x :
  (lo <? hi) = true ->
  clamp lo hi x = lo \/ clamp lo hi x = hi
  \/ (clamp lo hi x = x /\ (lo <? x) = true /\ (x <? hi) = true).
Proof.
  intros Hband. unfold clamp, Py.max2, Py.min2, Py.gt, Py.lt.
  destruct (x <? hi) eqn:Hhi.
  - destruct (lo <? x) eqn:Hlo; auto.
  - rewrite Hband. auto.
Qed.

Lemma clamp_temperature x :
  let t := clamp 15 45 x in
  (15 <=? t) = true /\ (t <=? 45) = true
  /\ (15 <=? Py.round1 t) = true /\ (Py.round1 t <=? 45) = true.
Proof.
  cbv zeta.
  destruct (clamp_cases 15 45 x eq_refl) as [-> | [-> | (-> & Hlo & Hhi)]].
  - vm_compute. auto.
  - vm_compute. auto.
  - pose proof (round1_temperature_band x Hlo Hhi) as [? ?].
    auto using ltb_leb.
Qed.

Lemma clamp_humidity x :
  let h := clamp 20 90 x in
  (20 <=? h) = true /\ (h <=? 90) = true
  /\ (20 <=? Py.round1 h) = true /\ (Py.round1 h <=? 90) = true.
Proof.
  cbv zeta.
  destruct (clamp_cases 20 90 x eq_refl) as [-> | [-> | (-> & Hlo & Hhi)]].
  - vm_compute. auto.
  - vm_compute. auto.
  - pose proof (round1_humidity_band x Hlo Hhi) as [? ?].
    auto using ltb_leb.
Qed.

Lemma read_sensors_run temp_draw humidity_draw c :
  let temp_variation :=
    if fan_running c then temp_draw - 2 else temp_draw in
  let humidity_variation :=
    if pump_running c then humidity_draw + 5 else humidity_draw in
  let t := clamp 15 45 (current_temp c + temp_variation * 0x1.999999999999ap-4) in
  let h := clamp 20 90
             (current_humidity c + humidity_variation * 0x1.999999999999ap-4) in
  read_sensors temp_draw humidity_draw c =
  ((Py.round1 t, Py.round1 h),
   set_current_humidity h (set_current_temp t c), []).
Proof. reflexivity. Qed.

(** [clamp] limits its argument to the range, whatever the argument. *)
Lemma clamp_clamped lo hi x s m e s' m' e' :
  Prim2SF lo = S754_finite s m e -> Prim2SF hi = S754_finite s' m' e' ->
  (lo <? hi) = true ->
  clamped lo hi x (clamp lo hi x).
Proof.
  intros Hlo Hhi Hband.
  unfold clamped, clamp, Py.max2, Py.min2, Py.gt, Py.lt.
  repeat split.
  - intros Hx.
    assert (Hxh : (x <? hi) = true).
    { destruct (x <? hi) eqn:E; [reflexivity|].
      rewrite (ltb_beyond _ _ _ Hx E) in Hband. discriminate. }
    rewrite Hxh, (ltb_asym _ _ Hx). reflexivity.
  - intros Hx. rewrite (ltb_asym _ _ Hx), Hband. reflexivity.
  - intros Hl Hh. destruct (x <? hi) eqn:Exh.
    + destruct (lo <? x) eqn:Elx; [reflexivity|].
      symmetry. exact (leb_not_ltb_right _ _ _ _ _ Hlo Hl Elx).
    + rewrite Hband. symmetry. exact (leb_not_ltb_left _ _ _ _ _ Hhi Hh Exh).
  - intros Hnan. rewrite (nan_ltb _ _ Hnan), Hband. reflexivity.
Qed.

(** A bound of a range is its own reading. *)
Lemma reading_at_bound x s m e n :
  Prim2SF x = S754_finite s m e -> s = false -> Py.tenths m e = Zpos n ->
  (Zpos n < 2 ^ 53)%Z ->
  nearest_tenth x (Zpos n)
  /\ Py.round1 x = of_uint63 (Uint63Axioms.of_Z (Zpos n)) / 10.
Proof.
  intros Hx -> Hn Hs. split.
  - pose proof (tenths_nearest x false m e Hx) as Hk. cbv iota in Hk.
    rewrite Hn in Hk. exact Hk.
  - rewrite (round1_positive x m e n Hx Hn). apply decimal_div. exact Hs.
Qed.

(** The reading of a clamped value is [k / 10] for its nearest tenth
    [k], which is within the range. *)
Lemma reading_temperature x :
  exists k : Z,
    nearest_tenth (clamp 15 45 x) k /\ (150 <= k <= 450)%Z
    /\ Py.round1 (clamp 15 45 x) = of_uint63 (Uint63Axioms.of_Z k) / 10.
Proof.
  destruct (clamp_cases 15 45 x eq_refl) as [-> | [-> | (-> & Hlo & Hhi)]].
  - exists 150%Z.
    destruct (reading_at_bound 15 _ _ _ 150 Prim2SF_15 eq_refl eq_refl eq_refl).
    split; [assumption | split; [lia | assumption]].
  - exists 450%Z.
    destruct (reading_at_bound 45 _ _ _ 450 Prim2SF_45 eq_refl eq_refl eq_refl).
    split; [assumption | split; [lia | assumption]].
  - destruct (reading_temperature_band x Hlo Hhi) as (n & (Hk & Hr) & Hn).
    exists (Zpos n). auto.
Qed.

Lemma reading_humidity x :
  exists k : Z,
    nearest_tenth (clamp 20 90 x) k /\ (200 <= k <= 900)%Z
    /\ Py.round1 (clamp 20 90 x) = of_uint63 (Uint63Axioms.of_Z k) / 10.
Proof.
  destruct (clamp_cases 20 90 x eq_refl) as [-> | [-> | (-> & Hlo & Hhi)]].
  - exists 200%Z.
    destruct (reading_at_bound 20 _ _ _ 200 Prim2SF_20 eq_refl eq_refl eq_refl).
    split; [assumption | split; [lia | assumption]].
  - exists 900%Z.
    destruct (reading_at_bound 90 _ _ _ 900 Prim2SF_90 eq_refl eq_refl eq_refl).
    split; [assumption | split; [lia | assumption]].
  - destruct (reading_humidity_band x Hlo Hhi) as (n & (Hk & Hr) & Hn).
    exists (Zpos n). auto.
Qed.

End Clamp.

(** C9.  For every controller and every pair of draws, one call of
    [read_sensors] moves the simulated temperature by a tenth of the
    draw, less 2 when the fan runs, and the simulated humidity by a
    tenth of the draw, plus 5 when the pump runs; it clamps them to
    [15, 45] and [20, 90]: a value below the range becomes the lower
    bound, one above it (or a NaN) the upper bound, one inside stays;
    it returns the clamped values rounded to one decimal place: the
    reading is the binary64 quotient [k / 10] for the integer [k]
    nearest to ten times the clamped value, the even one at a tie; and
    the returned reading lies within the same bounds. *)
Theorem read_sensors_bounded (temp_draw humidity_draw : float)
        (c : SmartFarmController) :
  let temp_variation :=
    if fan_running c then (temp_draw - 2)%float else temp_draw in
  let humidity_variation :=
    if pump_running c then (humidity_draw + 5)%float else humidity_draw in
  let moved_temp :=
    (current_temp c + temp_variation * 0x1.999999999999ap-4)%float in
  let moved_humidity :=
    (current_humidity c + humidity_variation * 0x1.999999999999ap-4)%float in
  let r := read_sensors temp_draw humidity_draw c in
  current_temp (after r) = clamp 15 45 moved_temp
  /\ current_humidity (after r) = clamp 20 90 moved_humidity
  /\ value r =
     (Py.round1 (current_temp (after r)), Py.round1 (current_humidity (after r)))
  /\ ((15 <=? current_temp (after r))%float = true
      /\ (current_temp (after r) <=? 45)%float = true)
  /\ ((20 <=? current_humidity (after r))%float = true
      /\ (current_humidity (after r) <=? 90)%float = true)
  /\ ((15 <=? fst (value r))%float = true
      /\ (fst (value r) <=? 45)%float = true)
  /\ ((20 <=? snd (value r))%float = true
      /\ (snd (value r) <=? 90)%float = true)
  /\ clamped 15 45 moved_temp (current_temp (after r))
  /\ clamped 20 90 moved_humidity (current_humidity (after r))
  /\ (exists k : Z,
         nearest_tenth (current_temp (after r)) k /\ (150 <= k <= 450)%Z
         /\ fst (value r) = (of_uint63 (Uint63Axioms.of_Z k) / 10)%float)
  /\ (exists k : Z,
         nearest_tenth (current_humidity (after r)) k /\ (200 <= k <= 900)%Z
         /\ snd (value r) = (of_uint63 (Uint63Axioms.of_Z k) / 10)%float).
Proof.
  cbv zeta. rewrite read_sensors_run. cbv zeta.
  unfold after, value. cbn [fst snd current_temp current_humidity
                            set_current_temp set_current_humidity].
  match goal with
  | |- context [clamp 15 45 ?x] =>
      pose proof (clamp_temperature x) as (? & ? & ? & ?);
      pose proof (clamp_clamped 15 45 x _ _ _ _ _ _ Prim2SF_15 Prim2SF_45
                                eq_refl);
      pose proof (reading_temperature x)
  end.
  match goal with
  | |- context [clamp 20 90 ?x] =>
      pose proof (clamp_humidity x) as (? & ? & ? & ?);
      pose proof (clamp_clamped 20 90 x _ _ _ _ _ _ Prim2SF_20 Prim2SF_90
                                eq_refl);
      pose proof (reading_humidity x)
  end.
  repeat match goal with |- _ /\ _ => split end; assumption || reflexivity.
Qed.

(** * Statistics *)

Section Extremes.

Local Open Scope float_scope.

Lemma max2_choice a b : Py.max2 a b = a \/ Py.max2 a b = b.
Proof. unfold Py.max2. destruct (Py.gt b a); auto. Qed.

Lemma min2_choice a b : Py.min2 a b = a \/ Py.min2 a b = b.
Proof. unfold Py.min2. destruct (Py.lt b a); auto. Qed.

Lemma fold_max2_in tl : forall cur, In (fold_left Py.max2 tl cur) (cur :: tl).
Proof.
  induction tl as [|a tl IH]; intros cur; cbn [fold_left]; [now left|].
  destruct (max2_choice cur a) as [E|E]; rewrite E.
  - destruct (IH cur) as [H|H]; [now left | now right; right].
  - right. apply IH.
Qed.

Lemma fold_min2_in tl : forall cur, In (fold_left Py.min2 tl cur) (cur :: tl).
Proof.
  induction tl as [|a tl IH]; intros cur; cbn [fold_left]; [now left|].
  destruct (min2_choice cur a) as [E|E]; rewrite E.
  - destruct (IH cur) as [H|H]; [now left | now right; right].
  - right. apply IH.
Qed.

(** The running maximum stays above whatever the candidate was not
    below. *)
Lemma fold_max2_dominates tl : forall cur z,
  (cur <? z) = false -> (fold_left Py.max2 tl cur <? z) = false.
Proof.
  induction tl as [|a tl IH]; intros cur z Hz; cbn [fold_left]; [exact Hz|].
  apply IH. unfold Py.max2, Py.gt. destruct (cur <? a) eqn:E; [ | exact Hz].
  exact (ltb_beyond _ _ _ E Hz).
Qed.

Lemma fold_min2_dominates tl : forall cur z,
  (z <? cur) = false -> (z <? fold_left Py.min2 tl cur) = false.
Proof.
  induction tl as [|a tl IH]; intros cur z Hz; cbn [fold_left]; [exact Hz|].
  apply IH. unfold Py.min2, Py.lt. destruct (a <? cur) eqn:E; [ | exact Hz].
  exact (ltb_before _ _ _ E Hz).
Qed.

Lemma fold_max2_upper tl : forall cur x,
  In x (cur :: tl) -> (fold_left Py.max2 tl cur <? x) = false.
Proof.
  induction tl as [|a tl IH]; intros cur x Hx.
  - destruct Hx as [<- | []]. apply ltb_irrefl.
  - cbn [fold_left]. destruct Hx as [<- | [<- | Hx]].
    + apply fold_max2_dominates. unfold Py.max2, Py.gt.
      destruct (cur <? a) eqn:E; [ | apply ltb_irrefl].
      now apply ltb_asym.
    + apply fold_max2_dominates. unfold Py.max2, Py.gt.
      destruct (cur <? a) eqn:E; [apply ltb_irrefl | exact E].
    + apply IH. now right.
Qed.

Lemma fold_min2_lower tl : forall cur x,
  In x (cur :: tl) -> (x <? fold_left Py.min2 tl cur) = false.
Proof.
  induction tl as [|a tl IH]; intros cur x Hx.
  - destruct Hx as [<- | []]. apply ltb_irrefl.
  - cbn [fold_left]. destruct Hx as [<- | [<- | Hx]].
    + apply fold_min2_dominates. unfold Py.min2, Py.lt.
      destruct (a <? cur) eqn:E; [ | apply ltb_irrefl].
      now apply ltb_asym.
    + apply fold_min2_dominates. unfold Py.min2, Py.lt.
      destruct (a <? cur) eqn:E; [apply ltb_irrefl | exact E].
    + apply IH. now right.
Qed.

Lemma max_list_greatest x tl :
  exists m, Py.max_list (x :: tl) = inr m /\ greatest m (x :: tl).
Proof.
  exists (fold_left Py.max2 tl x). split; [reflexivity|].
  pose proof (fold_max2_in tl x) as Hin.
  pose proof (fold_max2_upper tl x) as Hup.
  repeat split; trivial.
  intros Hnan y Hy. apply leb_total; auto.
Qed.

Lemma min_list_least x tl :
  exists m, Py.min_list (x :: tl) = inr m /\ least m (x :: tl).
Proof.
  exists (fold_left Py.min2 tl x). split; [reflexivity|].
  pose proof (fold_min2_in tl x) as Hin.
  pose proof (fold_min2_lower tl x) as Hlow.
  repeat split; trivial.
  intros Hnan y Hy. apply leb_total; auto.
Qed.

End Extremes.

Lemma count_where_filter flag log :
  count_where flag log = Z.of_nat (List.length (filter flag log)).
Proof.
  unfold count_where.
  assert (H : forall acc,
             fold_left (fun acc data => if flag data then (acc + 1)%Z else acc)
                       log acc
             = (acc + Z.of_nat (List.length (filter flag log)))%Z).
  { induction log as [|d log IH]; intros acc; cbn [fold_left filter].
    - cbn. lia.
    - rewrite IH. destruct (flag d); cbn [List.length]; lia. }
  rewrite H. lia.
Qed.

(** C6.  On an empty log [get_statistics] returns the empty dictionary:
    a normal return, not an exception, and with no key at all, so with
    no zero-valued statistics. *)
Theorem statistics_of_empty_log (c : SmartFarmController) :
  data_log c = [] ->
  get_statistics c = inr [] /\ forall key, lookup key [] = None.
Proof.
  intros H. unfold get_statistics. rewrite H. split; reflexivity.
Qed.

Lemma statistics_of_empty_log_witness :
  get_statistics init = inr [] /\ forall key, lookup key [] = None.
Proof. apply (statistics_of_empty_log init). reflexivity. Defined.

Lemma truediv_by_length (x : float) (A : Type) (a : A) (l : list A) :
  Py.truediv x (Z.of_nat (List.length (a :: l))) =
  inr (x / Py.float_of_int (Z.of_nat (List.length (a :: l))))%float.
Proof.
  unfold Py.truediv.
  destruct (Z.eqb_spec (Z.of_nat (List.length (a :: l))) 0) as [H|H];
    [ cbn [List.length] in H; lia | reflexivity ].
Qed.

Lemma combine_app {A B : Type} (l1 l1' : list A) : forall (l2 l2' : list B),
  List.length l1 = List.length l2 ->
  combine (l1 ++ l1') (l2 ++ l2') = combine l1 l2 ++ combine l1' l2'.
Proof.
  induction l1 as [|a l1 IH]; intros [|b l2] l2' H; try discriminate H;
    [reflexivity|].
  cbn [app combine]. f_equal. apply IH. now injection H.
Qed.

Section Sums.

Local Open Scope float_scope.

Variable whole : nat -> bool.

Lemma sum_running l :
  running_sum Before312 whole l (fold_left add l 0) 0.
Proof.
  induction l as [|x l IH] using rev_ind; [constructor|].
  rewrite fold_left_app. cbn [fold_left].
  exact (sum_item Before312 whole l _ _ x IH).
Qed.

Lemma mark_snoc l x :
  mark whole (l ++ [x]) = mark whole l ++ [(whole (List.length l), x)].
Proof.
  unfold mark. rewrite length_app. cbn [List.length].
  rewrite Nat.add_1_r, seq_S, map_app. cbn [map Nat.add].
  rewrite combine_app by (now rewrite length_map, length_seq).
  reflexivity.
Qed.

Lemma mark_length l : List.length (mark whole l) = List.length l.
Proof.
  unfold mark. rewrite length_combine, length_map, length_seq.
  apply Nat.min_id.
Qed.

Lemma float_met n :
  existsb (fun j => negb (whole j)) (seq 0 (S n)) =
  existsb (fun j => negb (whole j)) (seq 0 n) || negb (whole n).
Proof.
  rewrite seq_S, existsb_app. cbn [existsb Nat.add]. now rewrite orb_false_r.
Qed.

(** The loop of CPython 3.12 keeps the running sum of the items met,
    and knows whether a float was among them. *)
Lemma sum_compensated_running l :
  let '(total, lost, started) :=
    fold_left Py.neumaier (mark whole l) (0, 0, false) in
  running_sum From312 whole l total lost
  /\ started = existsb (fun j => negb (whole j)) (seq 0 (List.length l)).
Proof.
  induction l as [|x l IH] using rev_ind; [split; constructor|].
  rewrite mark_snoc, fold_left_app. cbn [fold_left].
  destruct (fold_left Py.neumaier (mark whole l) (0, 0, false))
    as [[total lost] started].
  destruct IH as [IH Hs].
  pose proof (sum_item From312 whole l total lost x IH) as Hstep.
  rewrite length_app. cbn [List.length]. rewrite Nat.add_1_r, float_met, <- Hs.
  unfold compensated in Hstep. rewrite <- Hs in Hstep.
  unfold Py.neumaier. unfold rounding_error in Hstep.
  destruct (whole (List.length l)), started; cbn [negb andb orb] in *;
    try (split; [exact Hstep | reflexivity]).
  destruct (abs x <=? abs total); split; (exact Hstep || reflexivity).
Qed.

(** The built-in [sum] of either interpreter adds up as specified. *)
Lemma builtin_sum_is v l : sum_is v whole l (builtin_sum v whole l).
Proof.
  destruct v; unfold sum_is, builtin_sum.
  - exists (fold_left add l 0), 0. split; [apply sum_running | reflexivity].
  - unfold Py.sum_compensated.
    pose proof (sum_compensated_running l) as H.
    destruct (fold_left Py.neumaier (mark whole l) (0, 0, false))
      as [[total lost] started].
    exists total, lost. split; [apply H | reflexivity].
Qed.

Lemma builtin_average v l :
  average v whole l
          (Py.round1 (builtin_sum v whole l
                      / Py.float_of_int (Z.of_nat (List.length l)))).
Proof.
  exists (builtin_sum v whole l). split; [apply builtin_sum_is|].
  rewrite float_of_int_count. apply round1_one_decimal.
Qed.

Lemma running_sum_unique v l total lost :
  running_sum v whole l total lost ->
  forall total' lost', running_sum v whole l total' lost' ->
  total' = total /\ lost' = lost.
Proof.
  induction 1 as [ | l total lost x H IH]; intros total' lost' H';
    inversion H' as [ | l' t' c' x' Hl E]; subst.
  - auto.
  - now destruct l'.
  - now destruct l.
  - apply app_inj_tail in E as [-> ->].
    destruct (IH _ _ Hl) as [-> ->]. auto.
Qed.

(** The specification of the average determines it. *)
Lemma average_unique v l a a' :
  average v whole l a -> average v whole l a' -> a = a'.
Proof.
  intros (total & (t & c & Hrun & ->) & Ha)
         (total' & (t' & c' & Hrun' & ->) & Ha').
  destruct (running_sum_unique _ _ _ _ Hrun _ _ Hrun') as [-> ->].
  unfold one_decimal in *.
  destruct (Prim2SF _) as [s|s| |s m e]; try congruence.
  destruct Ha as (k & Hk & ->), Ha' as (k' & Hk' & ->).
  now rewrite (nearest_tenth_unique _ _ _ Hk Hk').
Qed.

End Sums.

(** What the method returns, in terms of the built-ins. *)
Lemma statistics_run (v : interpreter) (whole_temp whole_humidity : nat -> bool)
      (c : SmartFarmController) :
  data_log c <> [] ->
  let temps := map temperature (data_log c) in
  let humids := map humidity (data_log c) in
  exists max_temp min_temp max_humidity min_humidity : float,
    statistics v whole_temp whole_humidity c =
    inr [ ("avg_temp",
           Float (Py.round1 (builtin_sum v whole_temp temps
                             / Py.float_of_int (Z.of_nat (List.length temps)))));
          ("max_temp", Float max_temp);
          ("min_temp", Float min_temp);
          ("avg_humidity",
           Float (Py.round1 (builtin_sum v whole_humidity humids
                             / Py.float_of_int (Z.of_nat (List.length humids)))));
          ("max_humidity", Float max_humidity);
          ("min_humidity", Float min_humidity);
          ("fan_runtime",
           Int (Z.of_nat (List.length (filter fan_status (data_log c)))));
          ("pump_runtime",
           Int (Z.of_nat (List.length (filter pump_status (data_log c)))));
          ("total_records", Int (Z.of_nat (List.length (data_log c)))) ]%string
    /\ greatest max_temp temps /\ least min_temp temps
    /\ greatest max_humidity humids /\ least min_humidity humids.
Proof.
  intros Hne. cbv zeta.
  destruct (data_log c) as [|d log] eqn:Hlog; [congruence|].
  destruct (max_list_greatest (temperature d) (map temperature log))
    as (max_t & Emax_t & Hmax_t).
  destruct (min_list_least (temperature d) (map temperature log))
    as (min_t & Emin_t & Hmin_t).
  destruct (max_list_greatest (humidity d) (map humidity log))
    as (max_h & Emax_h & Hmax_h).
  destruct (min_list_least (humidity d) (map humidity log))
    as (min_h & Emin_h & Hmin_h).
  exists max_t, min_t, max_h, min_h.
  split; [ | exact (conj Hmax_t (conj Hmin_t (conj Hmax_h Hmin_h)))].
  destruct v; unfold statistics, get_statistics, get_statistics_compensated,
    builtin_sum;
    rewrite !count_where_filter, Hlog;
    cbn [map] in *; rewrite Emax_t, Emin_t, Emax_h, Emin_h;
    change (temperature d :: map temperature log)
      with (map temperature (d :: log));
    change (humidity d :: map humidity log) with (map humidity (d :: log));
    rewrite !length_map, !truediv_by_length; reflexivity.
Qed.

(** C7.  On a log that is not empty the statistics are the nine
    entries: the average of the temperatures rounded to one decimal
    place, a greatest and a least temperature of the log, the same
    three for the humidities, the number of records with the fan on,
    the number with the pump on, and the number of records.  The
    average is the sum of the values as the interpreter adds them,
    divided in binary64 by their number, and of that the nearest tenth.
    This holds under either interpreter, whichever readings of the log
    are Python ints. *)
Theorem statistics_of_log (v : interpreter)
        (whole_temp whole_humidity : nat -> bool) (c : SmartFarmController) :
  data_log c <> [] ->
  let temps := map temperature (data_log c) in
  let humids := map humidity (data_log c) in
  exists avg_temp max_temp min_temp avg_humidity max_humidity min_humidity
         : float,
    statistics v whole_temp whole_humidity c =
    inr [ ("avg_temp", Float avg_temp);
          ("max_temp", Float max_temp);
          ("min_temp", Float min_temp);
          ("avg_humidity", Float avg_humidity);
          ("max_humidity", Float max_humidity);
          ("min_humidity", Float min_humidity);
          ("fan_runtime",
           Int (Z.of_nat (List.length (filter fan_status (data_log c)))));
          ("pump_runtime",
           Int (Z.of_nat (List.length (filter pump_status (data_log c)))));
          ("total_records", Int (Z.of_nat (List.length (data_log c)))) ]%string
    /\ average v whole_temp temps avg_temp
    /\ greatest max_temp temps /\ least min_temp temps
    /\ average v whole_humidity humids avg_humidity
    /\ greatest max_humidity humids /\ least min_humidity humids.
Proof.
  intros Hne. cbv zeta.
  destruct (statistics_run v whole_temp whole_humidity c Hne)
    as (max_t & min_t & max_h & min_h & Hrun & Hmax_t & Hmin_t & Hmax_h & Hmin_h).
  eexists _, max_t, min_t, _, max_h, min_h.
  split; [exact Hrun|].
  split; [apply builtin_average|].
  split; [exact Hmax_t|]. split; [exact Hmin_t|].
  split; [apply builtin_average|].
  split; [exact Hmax_h | exact Hmin_h].
Qed.

(** The log of [two_records] under CPython 3.12: 25.5 and 31.0 degrees,
    45.5 and 39.5 percent, all of them floats, fan and pump on in the
    second record. *)
Lemma statistics_of_log_witness :
  let c := two_records in
  let floats := fun _ : nat => false in
  let temps := map temperature (data_log c) in
  let humids := map humidity (data_log c) in
  exists avg_temp max_temp min_temp avg_humidity max_humidity min_humidity
         : float,
    statistics From312 floats floats c =
    inr [ ("avg_temp", Float avg_temp);
          ("max_temp", Float max_temp);
          ("min_temp", Float min_temp);
          ("avg_humidity", Float avg_humidity);
          ("max_humidity", Float max_humidity);
          ("min_humidity", Float min_humidity);
          ("fan_runtime",
           Int (Z.of_nat (List.length (filter fan_status (data_log c)))));
          ("pump_runtime",
           Int (Z.of_nat (List.length (filter pump_status (data_log c)))));
          ("total_records", Int (Z.of_nat (List.length (data_log c)))) ]%string
    /\ average From312 floats temps avg_temp
    /\ greatest max_temp temps /\ least min_temp temps
    /\ average From312 floats humids avg_humidity
    /\ greatest max_humidity humids /\ least min_humidity humids.
Proof.
  apply (statistics_of_log From312 (fun _ => false) (fun _ => false)
                           two_records).
  discriminate.
Defined.

(** * Beyond the claims: what a decision prints and leaves alone *)

Lemma make_control_decisions_full temperature humidity c :
  let fan' := fan_running (after (make_control_decisions temperature humidity c)) in
  let pump' :=
    pump_running (after (make_control_decisions temperature humidity c)) in
  make_control_decisions temperature humidity c =
  (tt, set_pump_running pump' (set_fan_running fan' c),
   transitions (fan_running c) (pump_running c) fan' pump').
Proof.
  cbv zeta. rewrite fan_after_decision, pump_after_decision.
  unfold make_control_decisions, transitions.
  unfold bind at 1. unfold bind at 1. unfold self at 1.
  destruct (Py.gt temperature (temp_threshold c));
    [ | destruct (Py.lt temperature (temp_threshold c - 2)) ];
    rewrite ?control_fan_run; unfold ret at 1; unfold bind, self;
    cbn [humidity_threshold pump_running set_fan_running];
    (destruct (Py.lt humidity (humidity_threshold c));
     [ | destruct (Py.gt humidity (humidity_threshold c + 10)) ]);
    rewrite ?control_pump_run; unfold ret;
    destruct c as [T HT fan pump log ct ch];
    cbn [fan_running pump_running set_fan_running set_pump_running
         temp_threshold humidity_threshold data_log current_temp
         current_humidity];
    destruct fan, pump; reflexivity.
Qed.

Lemma decision_frame temperature humidity c :
  let r := make_control_decisions temperature humidity c in
  printed r = transitions (fan_running c) (pump_running c)
                          (fan_running (after r)) (pump_running (after r))
  /\ temp_threshold (after r) = temp_threshold c
  /\ humidity_threshold (after r) = humidity_threshold c
  /\ data_log (after r) = data_log c.
Proof.
  cbv zeta. split.
  - pose proof (make_control_decisions_full temperature humidity c) as H.
    cbv zeta in H. rewrite H at 1. reflexivity.
  - rewrite make_control_decisions_run. repeat split; reflexivity.
Qed.

(** X1.  A decision prints one line for each device whose flag it
    changes, the fan's first, and nothing else; it leaves the
    thresholds, the simulated environment and the log as they were. *)
Theorem decision_prints_transitions (temperature humidity : float)
        (c : SmartFarmController) :
  let r := make_control_decisions temperature humidity c in
  printed r = transitions (fan_running c) (pump_running c)
                          (fan_running (after r)) (pump_running (after r))
  /\ temp_threshold (after r) = temp_threshold c
  /\ humidity_threshold (after r) = humidity_threshold c
  /\ current_temp (after r) = current_temp c
  /\ current_humidity (after r) = current_humidity c
  /\ data_log (after r) = data_log c.
Proof.
  cbv zeta. split.
  - pose proof (make_control_decisions_full temperature humidity c) as H.
    cbv zeta in H. rewrite H at 1. reflexivity.
  - rewrite make_control_decisions_run. repeat split; reflexivity.
Qed.

Lemma transitions_none fan pump : transitions fan pump fan pump = [].
Proof. unfold transitions. rewrite !Bool.eqb_reflx. reflexivity. Qed.

(** X2.  A second decision on the same reading changes nothing and
    prints nothing: the rule has settled after one step. *)
Theorem decision_settles (temperature humidity : float)
        (c : SmartFarmController) :
  let first := make_control_decisions temperature humidity c in
  let second := make_control_decisions temperature humidity (after first) in
  after second = after first /\ printed second = [].
Proof.
  cbv zeta. set (c1 := after (make_control_decisions temperature humidity c)).
  assert (HT : temp_threshold c1 = temp_threshold c)
    by (unfold c1; rewrite make_control_decisions_run; reflexivity).
  assert (HH : humidity_threshold c1 = humidity_threshold c)
    by (unfold c1; rewrite make_control_decisions_run; reflexivity).
  assert (Hf : fan_running (after (make_control_decisions temperature humidity c1))
               = fan_running c1).
  { rewrite fan_after_decision, HT. unfold c1.
    rewrite (fan_after_decision temperature humidity c).
    destruct (Py.gt temperature (temp_threshold c)); [reflexivity|].
    destruct (Py.lt temperature (temp_threshold c - 2)); reflexivity. }
  assert (Hp : pump_running (after (make_control_decisions temperature humidity c1))
               = pump_running c1).
  { rewrite pump_after_decision, HH. unfold c1.
    rewrite (pump_after_decision temperature humidity c).
    destruct (Py.lt humidity (humidity_threshold c)); [reflexivity|].
    destruct (Py.gt humidity (humidity_threshold c + 10)); reflexivity. }
  pose proof (make_control_decisions_full temperature humidity c1) as H.
  cbv zeta in H. rewrite Hf, Hp in H. rewrite H.
  unfold after, printed. cbn [fst snd].
  rewrite set_fan_running_same, set_pump_running_same, transitions_none.
  split; reflexivity.
Qed.

(** * Beyond the claims: hysteresis of the pump, and devices that are off *)

(** A property of the controller that every decision preserves, on
    readings that allow it, holds after a whole run of decisions. *)
Lemma drive_invariant (P : SmartFarmController -> Prop)
      (ok : float * float -> Prop) :
  (forall c r, P c -> ok r ->
               P (after (make_control_decisions (fst r) (snd r) c))) ->
  forall readings c, P c -> Forall ok readings -> P (drive readings c).
Proof.
  intros Hstep readings.
  induction readings as [|r readings IH]; intros c Hc Hall; [exact Hc|].
  inversion Hall as [|? ? Hr Hrest]; subst.
  cbn [drive fold_left]. fold (drive readings). apply IH; auto.
Qed.

Lemma Forall_firstn {A} (P : A -> Prop) (k : nat) (l : list A) :
  Forall P l -> Forall P (firstn k l).
Proof.
  rewrite !Forall_forall. intros H x Hx. apply H.
  rewrite <- (firstn_skipn k l). apply in_or_app. left. exact Hx.
Qed.

(** X3.  While no humidity reading is above the humidity threshold plus
    the band width 10, a pump that is on is still on after every number
    of decisions; and a reading in the band, not below the threshold
    and not above the threshold plus 10, leaves the pump as it was. *)
Theorem pump_hysteresis :
  (forall (c : SmartFarmController) (readings : list (float * float)) (k : nat),
      pump_running c = true ->
      Forall (fun r => Py.gt (snd r) (humidity_threshold c + 10)%float = false)
             readings ->
      pump_running (drive (firstn k readings) c) = true)
  /\
  (forall (c : SmartFarmController) (temperature humidity : float),
      (humidity_threshold c <=? humidity)%float = true ->
      (humidity <=? humidity_threshold c + 10)%float = true ->
      pump_running (after (make_control_decisions temperature humidity c)) =
      pump_running c).
Proof.
  split.
  - intros c readings k Hon Hall.
    apply (drive_invariant
             (fun c' => humidity_threshold c' = humidity_threshold c
                        /\ pump_running c' = true)
             (fun r => Py.gt (snd r) (humidity_threshold c + 10)%float = false));
      [ | auto | now apply Forall_firstn ].
    intros c' r [HH Hp] Hr. split.
    + rewrite make_control_decisions_run. exact HH.
    + rewrite pump_after_decision, HH, Hr, Hp.
      destruct (Py.lt (snd r) (humidity_threshold c)); reflexivity.
  - intros c temperature humidity Hlo Hhi.
    rewrite pump_after_decision. unfold Py.gt, Py.lt.
    rewrite (leb_not_gt _ _ Hlo), (leb_not_gt _ _ Hhi). reflexivity.
Qed.

(** The pump comes on at 35 percent and stays on through 45 and 50
    (threshold 40); 45 is in the band. *)
Lemma pump_hysteresis_witness :
  pump_running
    (drive (firstn 2 [(25, 45); (25, 50)]%float)
           (after (make_control_decisions 25 35 init))) = true
  /\ pump_running (after (make_control_decisions 25 45 init)) =
     pump_running init.
Proof.
  split.
  - apply (proj1 pump_hysteresis).
    + vm_compute. reflexivity.
    + repeat constructor.
  - apply (proj2 pump_hysteresis); vm_compute; reflexivity.
Defined.

(** X4.  A device that is off stays off as long as its switch-on
    condition does not occur: the fan while no temperature reading is
    above the temperature threshold, the pump while no humidity reading
    is below the humidity threshold. *)
Theorem devices_stay_off :
  (forall (c : SmartFarmController) (readings : list (float * float)) (k : nat),
      fan_running c = false ->
      Forall (fun r => Py.gt (fst r) (temp_threshold c) = false) readings ->
      fan_running (drive (firstn k readings) c) = false)
  /\
  (forall (c : SmartFarmController) (readings : list (float * float)) (k : nat),
      pump_running c = false ->
      Forall (fun r => Py.lt (snd r) (humidity_threshold c) = false) readings ->
      pump_running (drive (firstn k readings) c) = false).
Proof.
  split.
  - intros c readings k Hoff Hall.
    apply (drive_invariant
             (fun c' => temp_threshold c' = temp_threshold c
                        /\ fan_running c' = false)
             (fun r => Py.gt (fst r) (temp_threshold c) = false));
      [ | auto | now apply Forall_firstn ].
    intros c' r [HT Hf] Hr. split.
    + rewrite make_control_decisions_run. exact HT.
    + rewrite fan_after_decision, HT, Hr, Hf.
      destruct (Py.lt (fst r) (temp_threshold c - 2)); reflexivity.
  - intros c readings k Hoff Hall.
    apply (drive_invariant
             (fun c' => humidity_threshold c' = humidity_threshold c
                        /\ pump_running c' = false)
             (fun r => Py.lt (snd r) (humidity_threshold c) = false));
      [ | auto | now apply Forall_firstn ].
    intros c' r [HH Hp] Hr. split.
    + rewrite make_control_decisions_run. exact HH.
    + rewrite pump_after_decision, HH, Hr, Hp.
      destruct (Py.gt (snd r) (humidity_threshold c + 10)); reflexivity.
Qed.

(** From a fresh controller (thresholds 30 and 40): 30 degrees is not
    above 30 and 40 percent is not below 40. *)
Lemma devices_stay_off_witness :
  fan_running (drive (firstn 2 [(29, 45); (30, 45)]%float) init) = false
  /\ pump_running (drive (firstn 2 [(25, 41); (25, 40)]%float) init) = false.
Proof.
  split.
  - apply (proj1 devices_stay_off); [reflexivity | repeat constructor].
  - apply (proj2 devices_stay_off); [reflexivity | repeat constructor].
Defined.

(** * Beyond the claims: one cycle *)

Lemma log_data_full now temperature humidity c :
  log_data now temperature humidity c =
  (tt, after (log_data now temperature humidity c), []).
Proof.
  unfold log_data, bind, self, assign, ret, after. cbn -[Nat.ltb].
  match goal with
  | |- context [(100 <? ?n)%nat] => destruct (100 <? n)%nat
  end; reflexivity.
Qed.

(** A cycle is its three steps in a row; only the decision prints. *)
Lemma cycle_run i c :
  let r := read_sensors (draw_temp i) (draw_humidity i) c in
  let d := make_control_decisions (fst (value r)) (snd (value r)) (after r) in
  cycle i c =
  (value r,
   after (log_data (log_clock i) (fst (value r)) (snd (value r)) (after d)),
   printed d).
Proof.
  cbv zeta. unfold cycle. unfold bind at 1.
  rewrite read_sensors_run. cbv zeta. unfold value, after, printed.
  cbn [fst snd]. unfold bind at 1.
  match goal with
  | |- context [make_control_decisions ?t ?h ?c1] =>
      destruct (make_control_decisions t h c1) as [[[] c2] out] eqn:E
  end.
  cbn [fst snd]. unfold bind at 1. rewrite log_data_full.
  unfold ret, after. cbn [fst snd]. rewrite !app_nil_r. reflexivity.
Qed.

Lemma read_sensors_in_range temp_draw humidity_draw c now fan pump :
  let r := read_sensors temp_draw humidity_draw c in
  in_sensor_range
    (mkSensorData now (fst (value r)) (snd (value r)) fan pump) = true.
Proof.
  cbv zeta. rewrite read_sensors_run. cbv zeta.
  unfold in_sensor_range, value.
  cbn [fst snd temperature humidity].
  match goal with
  | |- context [clamp 15 45 ?x] =>
      pose proof (clamp_temperature x) as (_ & _ & -> & ->)
  end.
  match goal with
  | |- context [clamp 20 90 ?x] =>
      pose proof (clamp_humidity x) as (_ & _ & -> & ->)
  end.
  reflexivity.
Qed.

Lemma pop0_app {A} (l : list A) (x : A) :
  l <> [] -> pop0 (l ++ [x]) = pop0 l ++ [x].
Proof. destruct l; [congruence | reflexivity]. Qed.

(** The log after [log_data]: the old log, less its first record when
    it already held 100 or more, and the new record at the end. *)
Lemma log_data_appends now temperature humidity c :
  let data := mkSensorData now temperature humidity
                           (fan_running c) (pump_running c) in
  data_log (after (log_data now temperature humidity c)) =
  (if (100 <=? List.length (data_log c))%nat
   then pop0 (data_log c) else data_log c) ++ [data].
Proof.
  cbv zeta. rewrite log_data_run. cbv zeta. cbn [data_log set_data_log].
  rewrite length_app. cbn [List.length].
  destruct (100 <=? List.length (data_log c))%nat eqn:E.
  - apply Nat.leb_le in E.
    replace (100 <? List.length (data_log c) + 1)%nat with true
      by (symmetry; apply Nat.ltb_lt; lia).
    apply pop0_app. intros H. rewrite H in E. cbn in E. lia.
  - apply Nat.leb_gt in E.
    replace (100 <? List.length (data_log c) + 1)%nat with false
      by (symmetry; apply Nat.ltb_ge; lia).
    reflexivity.
Qed.

Lemma log_data_keeps now temperature humidity c :
  let c' := after (log_data now temperature humidity c) in
  temp_threshold c' = temp_threshold c
  /\ humidity_threshold c' = humidity_threshold c
  /\ fan_running c' = fan_running c
  /\ pump_running c' = pump_running c
  /\ current_temp c' = current_temp c
  /\ current_humidity c' = current_humidity c.
Proof. cbv zeta. rewrite log_data_run. repeat split; reflexivity. Qed.

Lemma read_sensors_keeps temp_draw humidity_draw c :
  let c' := after (read_sensors temp_draw humidity_draw c) in
  temp_threshold c' = temp_threshold c
  /\ humidity_threshold c' = humidity_threshold c
  /\ fan_running c' = fan_running c
  /\ pump_running c' = pump_running c
  /\ data_log c' = data_log c.
Proof. cbv zeta. rewrite read_sensors_run. repeat split; reflexivity. Qed.

(** The state, the reading and the output of a cycle, step by step. *)
Lemma cycle_parts i c :
  let r := read_sensors (draw_temp i) (draw_humidity i) c in
  let d := make_control_decisions (fst (value r)) (snd (value r)) (after r) in
  value (cycle i c) = value r
  /\ after (cycle i c) =
     after (log_data (log_clock i) (fst (value r)) (snd (value r)) (after d))
  /\ printed (cycle i c) = printed d.
Proof.
  cbv zeta. pose proof (cycle_run i c) as H. cbv zeta in H. rewrite H.
  repeat split; reflexivity.
Qed.

Lemma cycle_keeps_thresholds i c :
  temp_threshold (after (cycle i c)) = temp_threshold c
  /\ humidity_threshold (after (cycle i c)) = humidity_threshold c.
Proof.
  destruct (cycle_parts i c) as (_ & -> & _).
  set (r := read_sensors (draw_temp i) (draw_humidity i) c).
  set (d := make_control_decisions (fst (value r)) (snd (value r)) (after r)).
  destruct (log_data_keeps (log_clock i) (fst (value r)) (snd (value r))
                           (after d)) as (-> & -> & _).
  destruct (decision_frame (fst (value r)) (snd (value r)) (after r))
    as (_ & HT & HH & _). fold d in HT, HH. rewrite HT, HH.
  destruct (read_sensors_keeps (draw_temp i) (draw_humidity i) c)
    as (HT' & HH' & _). split; assumption.
Qed.

(** The flags after a cycle are the decision on the cycle's reading. *)
Lemma cycle_flags i c :
  let r := cycle i c in
  fan_running (after r) =
    (if Py.gt (fst (value r)) (temp_threshold c) then true
     else if Py.lt (fst (value r)) (temp_threshold c - 2)%float then false
          else fan_running c)
  /\ pump_running (after r) =
    (if Py.lt (snd (value r)) (humidity_threshold c) then true
     else if Py.gt (snd (value r)) (humidity_threshold c + 10)%float then false
          else pump_running c).
Proof.
  cbv zeta. destruct (cycle_parts i c) as (-> & -> & _).
  set (r := read_sensors (draw_temp i) (draw_humidity i) c).
  set (d := make_control_decisions (fst (value r)) (snd (value r)) (after r)).
  destruct (log_data_keeps (log_clock i) (fst (value r)) (snd (value r))
                           (after d)) as (_ & _ & -> & -> & _).
  unfold d. rewrite fan_after_decision, pump_after_decision.
  destruct (read_sensors_keeps (draw_temp i) (draw_humidity i) c)
    as (HT & HH & Hf & Hp & _). fold r in HT, HH, Hf, Hp.
  rewrite HT, HH, Hf, Hp. split; reflexivity.
Qed.

Lemma cycle_log i c :
  let r := cycle i c in
  data_log (after r) =
  (if (100 <=? List.length (data_log c))%nat
   then pop0 (data_log c) else data_log c)
  ++ [mkSensorData (log_clock i) (fst (value r)) (snd (value r))
                   (fan_running (after r)) (pump_running (after r))].
Proof.
  cbv zeta. destruct (cycle_parts i c) as (-> & -> & _).
  set (r := read_sensors (draw_temp i) (draw_humidity i) c).
  set (d := make_control_decisions (fst (value r)) (snd (value r)) (after r)).
  destruct (log_data_keeps (log_clock i) (fst (value r)) (snd (value r))
                           (after d)) as (_ & _ & -> & -> & _).
  rewrite log_data_appends. cbv zeta.
  destruct (decision_frame (fst (value r)) (snd (value r)) (after r))
    as (_ & _ & _ & Hl). fold d in Hl. rewrite Hl.
  destruct (read_sensors_keeps (draw_temp i) (draw_humidity i) c)
    as (_ & _ & _ & _ & Hl'). fold r in Hl'. rewrite Hl'. reflexivity.
Qed.

Lemma cycle_in_range i c now fan pump :
  in_sensor_range
    (mkSensorData now (fst (value (cycle i c))) (snd (value (cycle i c)))
                  fan pump) = true.
Proof.
  destruct (cycle_parts i c) as (-> & _ & _).
  apply (read_sensors_in_range (draw_temp i) (draw_humidity i) c).
Qed.

Lemma cycle_printed i c :
  printed (cycle i c) =
  transitions (fan_running c) (pump_running c)
              (fan_running (after (cycle i c)))
              (pump_running (after (cycle i c))).
Proof.
  destruct (cycle_parts i c) as (_ & -> & ->).
  set (r := read_sensors (draw_temp i) (draw_humidity i) c).
  set (d := make_control_decisions (fst (value r)) (snd (value r)) (after r)).
  destruct (log_data_keeps (log_clock i) (fst (value r)) (snd (value r))
                           (after d)) as (_ & _ & -> & -> & _).
  destruct (decision_frame (fst (value r)) (snd (value r)) (after r))
    as (Hout & _). fold d in Hout. rewrite Hout.
  destruct (read_sensors_keeps (draw_temp i) (draw_humidity i) c)
    as (_ & _ & Hf & Hp & _). fold r in Hf, Hp. rewrite Hf, Hp. reflexivity.
Qed.


(** * Beyond the claims: the monitoring loop *)

Lemma pop0_length {A} (l : list A) : List.length (pop0 l) = List.length l - 1.
Proof. destruct l; cbn [pop0 List.length]; lia. Qed.

Lemma pop0_Forall {A} (P : A -> Prop) (l : list A) :
  Forall P l -> Forall P (pop0 l).
Proof. destruct 1; [constructor | assumption]. Qed.

Lemma cycle_log_length i c :
  List.length (data_log c) <= 100 ->
  List.length (data_log (after (cycle i c))) =
  Nat.min 100 (List.length (data_log c) + 1).
Proof.
  intros Hlen. rewrite cycle_log. cbv zeta. rewrite length_app.
  cbn [List.length].
  destruct (100 <=? List.length (data_log c))%nat eqn:E.
  - apply Nat.leb_le in E. rewrite pop0_length. lia.
  - apply Nat.leb_gt in E. lia.
Qed.

Lemma cycle_log_in_range i c :
  Forall (fun d => in_sensor_range d = true) (data_log c) ->
  Forall (fun d => in_sensor_range d = true) (data_log (after (cycle i c))).
Proof.
  intros Hall. rewrite cycle_log. cbv zeta. apply Forall_app. split.
  - destruct (100 <=? List.length (data_log c))%nat;
      [now apply pop0_Forall | assumption].
  - constructor; [apply cycle_in_range | constructor].
Qed.

Lemma cycle_logged i c entries :
  logged c entries ->
  exists record, logged (after (cycle i c)) (entries ++ [record]).
Proof.
  intros Hlog. destruct (cycle_parts i c) as (_ & -> & _).
  set (r := read_sensors (draw_temp i) (draw_humidity i) c).
  set (d := make_control_decisions (fst (value r)) (snd (value r)) (after r)).
  eexists. apply logged_append.
  apply (logged_other c); [exact Hlog|].
  destruct (decision_frame (fst (value r)) (snd (value r)) (after r))
    as (_ & _ & _ & Hl). fold d in Hl. rewrite Hl.
  exact (proj2 (proj2 (proj2 (proj2
           (read_sensors_keeps (draw_temp i) (draw_humidity i) c))))).
Qed.

Lemma monitoring_loop_state n : forall k inputs c,
  Forall (fun d => in_sensor_range d = true) (data_log c) ->
  List.length (data_log c) <= 100 ->
  let c' := fst (monitoring_loop n k inputs c) in
  List.length (data_log c') = Nat.min 100 (List.length (data_log c) + n)
  /\ Forall (fun d => in_sensor_range d = true) (data_log c')
  /\ temp_threshold c' = temp_threshold c
  /\ humidity_threshold c' = humidity_threshold c.
Proof.
  induction n as [|n IH]; intros k inputs c Hall Hlen; cbv zeta.
  - cbn [monitoring_loop fst]. repeat split; trivial. lia.
  - cbn [monitoring_loop fst].
    pose proof (cycle_log_length (inputs k) c Hlen) as Hlen1.
    pose proof (cycle_log_in_range (inputs k) c Hall) as Hall1.
    destruct (cycle_keeps_thresholds (inputs k) c) as (HT & HH).
    destruct (IH (S k) inputs (after (cycle (inputs k) c)) Hall1
                 ltac:(rewrite Hlen1; lia)) as (Hl & Ha & HT' & HH').
    repeat split.
    + rewrite Hl, Hlen1. lia.
    + exact Ha.
    + rewrite HT'. exact HT.
    + rewrite HH'. exact HH.
Qed.

Lemma monitoring_loop_logged n : forall k inputs c entries,
  logged c entries ->
  exists recent,
    List.length recent = n
    /\ logged (fst (monitoring_loop n k inputs c)) (entries ++ recent).
Proof.
  induction n as [|n IH]; intros k inputs c entries Hlog.
  - exists []. rewrite app_nil_r. split; [reflexivity | exact Hlog].
  - cbn [monitoring_loop fst].
    destruct (cycle_logged (inputs k) c entries Hlog) as (record & Hrec).
    destruct (IH (S k) inputs _ _ Hrec) as (recent & Hn & Hrecent).
    exists (record :: recent). split; [cbn; lia|].
    rewrite <- app_assoc in Hrecent. exact Hrecent.
Qed.

(** X6.  A monitoring run of [duration_minutes] minutes makes
    [duration_minutes * 12] cycles (none when that is not positive).
    Started on a log of at most 100 records that are all within the
    sensor range, it ends with a log of the old length plus the number
    of cycles, capped at 100, whose records are all within the sensor
    range; the thresholds are as before; and the records it appended
    are the newest of the log, in order, after those appended before. *)
Theorem monitoring_run_log (duration_minutes : Z) (inputs : nat -> cycle_input)
        (c : SmartFarmController) :
  Forall (fun d => in_sensor_range d = true) (data_log c) ->
  List.length (data_log c) <= 100 ->
  let cycles := Z.to_nat (duration_minutes * 12) in
  let c' := fst (run_monitoring_loop duration_minutes inputs c) in
  List.length (data_log c') = Nat.min 100 (List.length (data_log c) + cycles)
  /\ Forall (fun d => in_sensor_range d = true) (data_log c')
  /\ temp_threshold c' = temp_threshold c
  /\ humidity_threshold c' = humidity_threshold c
  /\ forall entries,
       logged c entries ->
       exists recent,
         List.length recent = cycles
         /\ logged c' (entries ++ recent)
         /\ data_log c' =
            skipn (List.length (entries ++ recent) - 100) (entries ++ recent).
Proof.
  intros Hall Hlen. cbv zeta. unfold run_monitoring_loop.
  destruct (monitoring_loop_state (Z.to_nat (duration_minutes * 12)) 0 inputs c
                                  Hall Hlen) as (Hl & Ha & HT & HH).
  repeat split; trivial.
  intros entries Hlog.
  destruct (monitoring_loop_logged (Z.to_nat (duration_minutes * 12)) 0 inputs
                                   c entries Hlog) as (recent & Hn & Hrec).
  exists recent. repeat split; trivial.
  now apply logged_last_hundred.
Qed.

(** A one-minute run on a fresh controller: 12 records. *)
Lemma monitoring_run_log_witness :
  let c' := fst (run_monitoring_loop 1 steady_inputs init) in
  List.length (data_log c') = Nat.min 100 (List.length (data_log init) + 12)
  /\ Forall (fun d => in_sensor_range d = true) (data_log c')
  /\ temp_threshold c' = temp_threshold init
  /\ humidity_threshold c' = humidity_threshold init
  /\ forall entries,
       logged init entries ->
       exists recent,
         List.length recent = 12
         /\ logged c' (entries ++ recent)
         /\ data_log c' =
            skipn (List.length (entries ++ recent) - 100) (entries ++ recent).
Proof.
  apply (monitoring_run_log 1 steady_inputs init).
  - constructor.
  - cbn. lia.
Defined.

Lemma status_blocks_said (lines : list message) :
  status_blocks (map Said lines) = [].
Proof. induction lines as [|m lines IH]; [reflexivity | exact IH]. Qed.

Lemma status_blocks_app (out1 out2 : list console) :
  status_blocks (out1 ++ out2) = status_blocks out1 ++ status_blocks out2.
Proof. apply flat_map_app. Qed.

(** The status shown after a cycle agrees with the decision of that
    cycle: a warning mark means that the device is on. *)
Lemma status_after_cycle i c :
  let r := cycle i c in
  let s := display_status (status_clock i) (fst (value r)) (snd (value r))
                          (after r) in
  (temperature_warning s = true -> fan_shown_on s = true)
  /\ (humidity_warning s = true -> pump_shown_on s = true).
Proof.
  cbv zeta. unfold display_status.
  cbn [temperature_warning humidity_warning fan_shown_on pump_shown_on].
  destruct (cycle_keeps_thresholds i c) as (-> & ->).
  destruct (cycle_flags i c) as (-> & ->).
  split; intros ->; reflexivity.
Qed.

(** Multiples of 10 among [k, k + n): one more for each ten begun. *)
Lemma tens_step k :
  (k + 10) / 10 = (k + 9) / 10 + (if (k mod 10 =? 0)%nat then 1 else 0).
Proof.
  pose proof (Nat.div_mod_eq k 10) as Hk.
  pose proof (Nat.mod_upper_bound k 10 ltac:(lia)) as Hr.
  set (q := k / 10) in *. set (r := k mod 10) in *.
  destruct (Nat.eqb_spec r 0) as [E|E].
  - rewrite E in Hk.
    replace (k + 10) with ((q + 1) * 10) by lia.
    replace (k + 9) with (9 + q * 10) by lia.
    rewrite Nat.div_mul, Nat.div_add by lia. cbn. lia.
  - replace (k + 10) with (r + (q + 1) * 10) by lia.
    replace (k + 9) with ((r - 1) + (q + 1) * 10) by lia.
    rewrite !Nat.div_add by lia.
    rewrite !Nat.div_small by lia. lia.
Qed.

Lemma monitoring_loop_status_count n : forall k inputs c,
  List.length (status_blocks (snd (monitoring_loop n k inputs c))) + (k + 9) / 10
  = (k + n + 9) / 10.
Proof.
  induction n as [|n IH]; intros k inputs c.
  - cbn [monitoring_loop snd status_blocks flat_map List.length].
    rewrite Nat.add_0_r. reflexivity.
  - cbn [monitoring_loop snd].
    rewrite !status_blocks_app, status_blocks_said, !length_app.
    cbn [List.length app].
    specialize (IH (S k) inputs (after (cycle (inputs k) c))).
    replace (S k + 9) with (k + 10) in IH by lia.
    replace (S k + n + 9) with (k + S n + 9) in IH by lia.
    rewrite tens_step in IH.
    destruct (k mod 10 =? 0)%nat; cbn [status_blocks flat_map app List.length];
      lia.
Qed.

Lemma monitoring_loop_status_agrees n : forall k inputs c,
  Forall (fun s => (temperature_warning s = true -> fan_shown_on s = true)
                   /\ (humidity_warning s = true -> pump_shown_on s = true))
         (status_blocks (snd (monitoring_loop n k inputs c))).
Proof.
  induction n as [|n IH]; intros k inputs c.
  - constructor.
  - cbn [monitoring_loop snd].
    rewrite !status_blocks_app, status_blocks_said. cbn [app].
    apply Forall_app. split; [ | apply IH].
    destruct (k mod 10 =? 0)%nat; [ | constructor].
    constructor; [ | constructor]. apply status_after_cycle.
Qed.

Lemma after_cycles_shift j : forall inputs c,
  after_cycles (S j) inputs c =
  after_cycles j (fun i => inputs (S i)) (after (cycle (inputs 0) c)).
Proof.
  induction j as [|j IH]; intros inputs c; [reflexivity|].
  change (after_cycles (S (S j)) inputs c)
    with (after (cycle (inputs (S j)) (after_cycles (S j) inputs c))).
  rewrite IH. reflexivity.
Qed.

Lemma after_cycles_ext n : forall f g c,
  (forall i, i < n -> f i = g i) -> after_cycles n f c = after_cycles n g c.
Proof.
  induction n as [|n IH]; intros f g c H; [reflexivity|].
  cbn [after_cycles]. rewrite (H n), (IH f g c) by auto. reflexivity.
Qed.

(** The loop leaves the controller that the cycles lead to one by one. *)
Lemma monitoring_loop_after_cycles n : forall k inputs c,
  fst (monitoring_loop n k inputs c) =
  after_cycles n (fun j => inputs (k + j)) c.
Proof.
  induction n as [|n IH]; intros k inputs c; [reflexivity|].
  rewrite after_cycles_shift, Nat.add_0_r. cbn [monitoring_loop fst].
  rewrite IH. apply after_cycles_ext. intros i _.
  now rewrite Nat.add_succ_r.
Qed.

(** The loop shows the status of the cycles whose number is a multiple
    of ten, in their order. *)
Lemma monitoring_loop_status n : forall k inputs c,
  status_blocks (snd (monitoring_loop n k inputs c)) =
  map (status_in_cycle (fun j => inputs (k + j)) c)
      (filter (fun j => (k + j) mod 10 =? 0) (seq 0 n)).
Proof.
  induction n as [|n IH]; intros k inputs c; [reflexivity|].
  cbn [monitoring_loop snd].
  rewrite !status_blocks_app, status_blocks_said. cbn [app].
  rewrite IH. clear IH.
  assert (Htail :
    map (status_in_cycle (fun j => inputs (S k + j))
                         (after (cycle (inputs k) c)))
        (filter (fun j => (S k + j) mod 10 =? 0) (seq 0 n)) =
    map (status_in_cycle (fun j => inputs (k + j)) c)
        (filter (fun j => (k + j) mod 10 =? 0) (seq 1 n))).
  { rewrite <- seq_shift, filter_map_swap, map_map.
    rewrite (filter_ext (fun j => (S k + j) mod 10 =? 0)
                        (fun j => (k + S j) mod 10 =? 0))
      by (intros j; now rewrite Nat.add_succ_r).
    apply map_ext. intros j. unfold status_in_cycle.
    rewrite after_cycles_shift, Nat.add_0_r, Nat.add_succ_r.
    rewrite (after_cycles_ext j (fun i => inputs (k + S i))
                              (fun i => inputs (S k + i)))
      by (intros i _; now rewrite Nat.add_succ_r).
    reflexivity. }
  rewrite Htail. cbn [seq filter]. rewrite Nat.add_0_r.
  destruct (k mod 10 =? 0); [ | reflexivity].
  cbn [status_blocks flat_map app map]. f_equal.
  unfold status_in_cycle. cbn [after_cycles]. rewrite Nat.add_0_r. reflexivity.
Qed.

(** The multiples of ten below [n] are 0, 10, ..., one for each ten
    begun. *)
Lemma tens_below n :
  filter (fun j => j mod 10 =? 0) (seq 0 n) =
  map (fun q => 10 * q) (seq 0 ((n + 9) / 10)).
Proof.
  induction n as [|n IH]; [reflexivity|].
  replace (S n + 9) with (n + 10) by lia. rewrite tens_step.
  rewrite seq_S, filter_app, IH. cbn [Nat.add filter].
  destruct (Nat.eqb_spec (n mod 10) 0) as [E|E].
  - rewrite Nat.add_1_r, seq_S, map_app. cbn [map Nat.add]. do 2 f_equal.
    pose proof (Nat.div_mod_eq n 10) as Hn. rewrite E in Hn.
    replace (n + 9) with (9 + (n / 10) * 10) by lia.
    rewrite Nat.div_add by lia. change (9 / 10) with 0. lia.
  - rewrite Nat.add_0_r, app_nil_r. reflexivity.
Qed.

(** X7.  A monitoring run shows the status in the cycles numbered 0,
    10, 20, ... and in no other: its status blocks are, in this order,
    those of the cycles 10 q for q below the number of cycles divided
    by 10, rounded up, each with the reading of its cycle and the
    controller as that cycle leaves it.  In each block a temperature
    warning comes with the fan shown on, and a humidity warning with
    the pump shown on. *)
Theorem monitoring_run_status (duration_minutes : Z)
        (inputs : nat -> cycle_input) (c : SmartFarmController) :
  let cycles := Z.to_nat (duration_minutes * 12) in
  let shown := status_blocks (snd (run_monitoring_loop duration_minutes inputs c)) in
  shown = map (fun q => status_in_cycle inputs c (10 * q))
              (seq 0 ((cycles + 9) / 10))
  /\ fst (run_monitoring_loop duration_minutes inputs c) =
     after_cycles cycles inputs c
  /\ List.length shown = (cycles + 9) / 10
  /\ Forall (fun s => (temperature_warning s = true -> fan_shown_on s = true)
                      /\ (humidity_warning s = true -> pump_shown_on s = true))
            shown.
Proof.
  cbv zeta. unfold run_monitoring_loop.
  set (cycles := Z.to_nat (duration_minutes * 12)).
  assert (Hshown :
    status_blocks (snd (monitoring_loop cycles 0 inputs c)) =
    map (fun q => status_in_cycle inputs c (10 * q))
        (seq 0 ((cycles + 9) / 10))).
  { rewrite monitoring_loop_status.
    change (fun j => (0 + j) mod 10 =? 0) with (fun j => j mod 10 =? 0).
    change (fun j => inputs (0 + j)) with (fun j => inputs j).
    rewrite tens_below, map_map. reflexivity. }
  split; [exact Hshown|]. split; [apply monitoring_loop_after_cycles|].
  split.
  - rewrite Hshown, length_map, length_seq. reflexivity.
  - apply monitoring_loop_status_agrees.
Qed.

(** X8.  A manual measurement (menu choice 2) prints the device
    transitions of its cycle and then exactly one status block; the
    block shows the values and device states of the record that the
    cycle has just put at the end of the log, and a warning mark in it
    comes with the device shown on. *)
Theorem manual_cycle_shows_record (i : cycle_input) (c : SmartFarmController) :
  let c' := fst (manual_cycle i c) in
  exists (s : StatusDisplay) (older : list SensorData),
    snd (manual_cycle i c) =
      map Said (transitions (fan_running c) (pump_running c)
                            (fan_running c') (pump_running c'))
      ++ [Status s]
    /\ data_log c' =
       older ++ [mkSensorData (log_clock i) (shown_temperature s)
                              (shown_humidity s) (fan_shown_on s)
                              (pump_shown_on s)]
    /\ shown_clock s = status_clock i
    /\ (temperature_warning s = true -> fan_shown_on s = true)
    /\ (humidity_warning s = true -> pump_shown_on s = true).
Proof.
  cbv zeta. unfold manual_cycle. cbn [fst snd].
  eexists. eexists. split; [ | split; [ | split ] ].
  - rewrite cycle_printed. reflexivity.
  - rewrite cycle_log. reflexivity.
  - reflexivity.
  - apply status_after_cycle.
Qed.

(** * Beyond the claims: what the statistics guarantee *)

Lemma filter_length_bound {A} (f : A -> bool) (l : list A) :
  List.length (filter f l) <= List.length l.
Proof.
  induction l as [|a l IH]; cbn [filter List.length]; [lia|].
  destruct (f a); cbn [List.length]; lia.
Qed.

(** What is at least some float is a number. *)
Lemma leb_not_nan a x : (a <=? x)%float = true -> is_nan x = false.
Proof.
  rewrite leb_spec. unfold is_nan. rewrite eqb_spec. intros H.
  rewrite SFeqb_refl; [reflexivity|].
  intros Hnan. rewrite Hnan in H. unfold SFleb, SFcompare in H.
  destruct (Prim2SF a); discriminate.
Qed.

Lemma lookup_statistics_keys (d : dict) (v1 v2 v3 v4 v5 v6 v7 v8 v9 : number) :
  d = [ ("avg_temp", v1); ("max_temp", v2); ("min_temp", v3);
        ("avg_humidity", v4); ("max_humidity", v5); ("min_humidity", v6);
        ("fan_runtime", v7); ("pump_runtime", v8);
        ("total_records", v9) ]%string ->
  forall key, (exists v, lookup key d = Some v) <-> In key statistics_keys.
Proof.
  intros -> key. unfold statistics_keys. cbn [lookup In]. split.
  - intros [v Hv].
    repeat match type of Hv with
           | (if String.eqb key ?k then _ else _) = _ =>
               destruct (String.eqb_spec key k) as [->|_]; [tauto|]
           end.
    discriminate.
  - intros H.
    repeat (destruct H as [<- | H]; [cbn; eauto|]). destruct H.
Qed.

(** The dictionary of a non-empty log, entry by entry. *)
Lemma statistics_entries (c : SmartFarmController) :
  data_log c <> [] ->
  exists (d : dict) (max_temp min_temp max_humidity min_humidity : float),
    get_statistics c = inr d
    /\ (forall key, (exists v, lookup key d = Some v) <-> In key statistics_keys)
    /\ lookup "max_temp" d = Some (Float max_temp)
    /\ lookup "min_temp" d = Some (Float min_temp)
    /\ lookup "max_humidity" d = Some (Float max_humidity)
    /\ lookup "min_humidity" d = Some (Float min_humidity)
    /\ greatest max_temp (map temperature (data_log c))
    /\ least min_temp (map temperature (data_log c))
    /\ greatest max_humidity (map humidity (data_log c))
    /\ least min_humidity (map humidity (data_log c))
    /\ lookup "fan_runtime" d =
       Some (Int (Z.of_nat (List.length (filter fan_status (data_log c)))))
    /\ lookup "pump_runtime" d =
       Some (Int (Z.of_nat (List.length (filter pump_status (data_log c)))))
    /\ lookup "total_records" d =
       Some (Int (Z.of_nat (List.length (data_log c)))).
Proof.
  intros Hne. unfold get_statistics. rewrite !count_where_filter.
  destruct (data_log c) as [|x log]; [congruence|].
  destruct (max_list_greatest (temperature x) (map temperature log))
    as (max_t & Emax_t & Hmax_t).
  destruct (min_list_least (temperature x) (map temperature log))
    as (min_t & Emin_t & Hmin_t).
  destruct (max_list_greatest (humidity x) (map humidity log))
    as (max_h & Emax_h & Hmax_h).
  destruct (min_list_least (humidity x) (map humidity log))
    as (min_h & Emin_h & Hmin_h).
  cbn [map] in *. rewrite Emax_t, Emin_t, Emax_h, Emin_h.
  rewrite !truediv_by_length.
  eexists. exists max_t, min_t, max_h, min_h.
  split; [reflexivity|].
  split; [eapply lookup_statistics_keys; reflexivity|].
  repeat (split; [first [reflexivity | assumption]|]). reflexivity.
Qed.

(** X9.  Whenever [get_statistics] returns a dictionary that is not
    empty, it has exactly the nine keys that the callers index, the
    record count is positive and is the length of the log, and the two
    runtimes lie between 0 and the record count; so the percentages
    that the menu derives divide by a positive number and lie between
    0 and 100 percent. *)
Theorem statistics_counts (c : SmartFarmController) (d : dict) :
  get_statistics c = inr d ->
  d <> [] ->
  (forall key, (exists v, lookup key d = Some v) <-> In key statistics_keys)
  /\ exists fan pump total : Z,
       lookup "fan_runtime" d = Some (Int fan)
       /\ lookup "pump_runtime" d = Some (Int pump)
       /\ lookup "total_records" d = Some (Int total)
       /\ total = Z.of_nat (List.length (data_log c))
       /\ (0 < total)%Z
       /\ (0 <= fan <= total)%Z
       /\ (0 <= pump <= total)%Z.
Proof.
  intros Hd Hne.
  assert (Hlog : data_log c <> []).
  { intros E. unfold get_statistics in Hd. rewrite E in Hd.
    injection Hd as <-. congruence. }
  destruct (statistics_entries c Hlog)
    as (d' & ? & ? & ? & ? & Hd' & Hkeys & _ & _ & _ & _ & _ & _ & _ & _
        & Hfan & Hpump & Htotal).
  rewrite Hd in Hd'. injection Hd' as <-.
  split; [exact Hkeys|].
  do 3 eexists. repeat split; try eassumption.
  - destruct (data_log c); [congruence | cbn [List.length]; lia].
  - lia.
  - pose proof (filter_length_bound fan_status (data_log c)). lia.
  - lia.
  - pose proof (filter_length_bound pump_status (data_log c)). lia.
Qed.

Lemma statistics_counts_witness :
  exists d,
    get_statistics two_records = inr d
    /\ (forall key, (exists v, lookup key d = Some v) <-> In key statistics_keys)
    /\ exists fan pump total : Z,
         lookup "fan_runtime" d = Some (Int fan)
         /\ lookup "pump_runtime" d = Some (Int pump)
         /\ lookup "total_records" d = Some (Int total)
         /\ total = Z.of_nat (List.length (data_log two_records))
         /\ (0 < total)%Z
         /\ (0 <= fan <= total)%Z
         /\ (0 <= pump <= total)%Z.
Proof.
  eexists. split; [vm_compute; reflexivity|].
  apply (statistics_counts two_records); [vm_compute; reflexivity|].
  discriminate.
Defined.

Lemma in_sensor_range_bounds (x : SensorData) :
  in_sensor_range x = true ->
  (15 <=? temperature x)%float = true /\ (temperature x <=? 45)%float = true
  /\ (20 <=? humidity x)%float = true /\ (humidity x <=? 90)%float = true.
Proof.
  unfold in_sensor_range. rewrite !andb_true_iff. tauto.
Qed.

(** An extreme of the temperatures (or humidities) of a log is the
    value of one of its records. *)
Lemma In_map_record {B} (f : SensorData -> B) (y : B) (log : list SensorData)
      (P : SensorData -> Prop) :
  Forall P log -> In y (map f log) -> exists x, f x = y /\ P x.
Proof.
  rewrite Forall_forall, in_map_iff. intros H (x & Hx & Hin). eauto.
Qed.

(** X10.  On a log that is not empty and whose records are all within
    the sensor range (as every log made by cycles is), the extremes that
    [get_statistics] reports are ordered and within the range:
    15 <= min_temp <= max_temp <= 45 and
    20 <= min_humidity <= max_humidity <= 90. *)
Theorem statistics_extremes_in_range (c : SmartFarmController) :
  data_log c <> [] ->
  Forall (fun x => in_sensor_range x = true) (data_log c) ->
  exists (d : dict) (max_temp min_temp max_humidity min_humidity : float),
    get_statistics c = inr d
    /\ lookup "max_temp" d = Some (Float max_temp)
    /\ lookup "min_temp" d = Some (Float min_temp)
    /\ lookup "max_humidity" d = Some (Float max_humidity)
    /\ lookup "min_humidity" d = Some (Float min_humidity)
    /\ ((15 <=? min_temp) && (min_temp <=? max_temp)
        && (max_temp <=? 45))%float = true
    /\ ((20 <=? min_humidity) && (min_humidity <=? max_humidity)
        && (max_humidity <=? 90))%float = true.
Proof.
  intros Hne Hall.
  destruct (statistics_entries c Hne)
    as (d & max_t & min_t & max_h & min_h & Hd & _ & Lmax_t & Lmin_t & Lmax_h
        & Lmin_h & Gt & Lt & Gh & Lh & _).
  exists d, max_t, min_t, max_h, min_h.
  repeat (split; [assumption|]).
  assert (Ht : forall y, In y (map temperature (data_log c)) ->
                         (15 <=? y)%float = true /\ (y <=? 45)%float = true).
  { intros y Hy.
    destruct (In_map_record temperature y _ _ Hall Hy) as (x & <- & Hx).
    apply in_sensor_range_bounds in Hx. tauto. }
  assert (Hh : forall y, In y (map humidity (data_log c)) ->
                         (20 <=? y)%float = true /\ (y <=? 90)%float = true).
  { intros y Hy.
    destruct (In_map_record humidity y _ _ Hall Hy) as (x & <- & Hx).
    apply in_sensor_range_bounds in Hx. tauto. }
  destruct Gt as (Gt_in & _ & Gt_all). destruct Lt as (Lt_in & _).
  destruct Gh as (Gh_in & _ & Gh_all). destruct Lh as (Lh_in & _).
  rewrite !andb_true_iff. repeat split.
  - apply Ht, Lt_in.
  - apply Gt_all; [ | exact Lt_in].
    intros y Hy. apply (leb_not_nan 15). apply Ht, Hy.
  - apply Ht, Gt_in.
  - apply Hh, Lh_in.
  - apply Gh_all; [ | exact Lh_in].
    intros y Hy. apply (leb_not_nan 20). apply Hh, Hy.
  - apply Hh, Gh_in.
Qed.

Lemma statistics_extremes_in_range_witness :
  exists (d : dict) (max_temp min_temp max_humidity min_humidity : float),
    get_statistics two_records = inr d
    /\ lookup "max_temp" d = Some (Float max_temp)
    /\ lookup "min_temp" d = Some (Float min_temp)
    /\ lookup "max_humidity" d = Some (Float max_humidity)
    /\ lookup "min_humidity" d = Some (Float min_humidity)
    /\ ((15 <=? min_temp) && (min_temp <=? max_temp)
        && (max_temp <=? 45))%float = true
    /\ ((20 <=? min_humidity) && (min_humidity <=? max_humidity)
        && (max_humidity <=? 90))%float = true.
Proof.
  apply (statistics_extremes_in_range two_records).
  - discriminate.
  - repeat constructor.
Defined.

(** X11.  After a monitoring run of at least one cycle, started as in
    X6, [get_statistics] returns a dictionary that is not empty, so the
    closing report of the run is printed; its record count is the old
    log length plus the number of cycles, capped at 100, and its
    extremes are within the sensor range. *)
Theorem monitoring_run_statistics (duration_minutes : Z)
        (inputs : nat -> cycle_input) (c : SmartFarmController) :
  (0 < duration_minutes)%Z ->
  Forall (fun x => in_sensor_range x = true) (data_log c) ->
  List.length (data_log c) <= 100 ->
  let cycles := Z.to_nat (duration_minutes * 12) in
  let c' := fst (run_monitoring_loop duration_minutes inputs c) in
  exists (d : dict) (max_temp min_temp max_humidity min_humidity : float),
    get_statistics c' = inr d
    /\ d <> []
    /\ lookup "total_records" d =
       Some (Int (Z.of_nat (Nat.min 100 (List.length (data_log c) + cycles))))
    /\ lookup "max_temp" d = Some (Float max_temp)
    /\ lookup "min_temp" d = Some (Float min_temp)
    /\ lookup "max_humidity" d = Some (Float max_humidity)
    /\ lookup "min_humidity" d = Some (Float min_humidity)
    /\ ((15 <=? min_temp) && (max_temp <=? 45))%float = true
    /\ ((20 <=? min_humidity) && (max_humidity <=? 90))%float = true.
Proof.
  intros Hpos Hall Hlen. cbv zeta. unfold run_monitoring_loop.
  destruct (monitoring_loop_state (Z.to_nat (duration_minutes * 12)) 0 inputs c
                                  Hall Hlen) as (Hl & Ha & _).
  set (c' := fst (monitoring_loop (Z.to_nat (duration_minutes * 12)) 0 inputs c))
    in *.
  assert (Hne : data_log c' <> []).
  { intros E. rewrite E in Hl. cbn [List.length] in Hl. lia. }
  destruct (statistics_entries c' Hne)
    as (d & max_t & min_t & max_h & min_h & Hd & _ & Lmax_t & Lmin_t & Lmax_h
        & Lmin_h & Gt & Lt & Gh & Lh & _ & _ & Ltotal).
  exists d, max_t, min_t, max_h, min_h.
  split; [exact Hd|].
  split; [intros E; rewrite E in Ltotal; discriminate|].
  split; [rewrite Ltotal, Hl; reflexivity|].
  repeat (split; [assumption|]).
  destruct Gt as (Gt_in & _). destruct Lt as (Lt_in & _).
  destruct Gh as (Gh_in & _). destruct Lh as (Lh_in & _).
  destruct (In_map_record temperature _ _ _ Ha Gt_in) as (x1 & <- & H1).
  destruct (In_map_record temperature _ _ _ Ha Lt_in) as (x2 & <- & H2).
  destruct (In_map_record humidity _ _ _ Ha Gh_in) as (x3 & <- & H3).
  destruct (In_map_record humidity _ _ _ Ha Lh_in) as (x4 & <- & H4).
  apply in_sensor_range_bounds in H1, H2, H3, H4.
  rewrite !andb_true_iff. tauto.
Qed.

Lemma monitoring_run_statistics_witness :
  let c' := fst (run_monitoring_loop 1 steady_inputs init) in
  exists (d : dict) (max_temp min_temp max_humidity min_humidity : float),
    get_statistics c' = inr d
    /\ d <> []
    /\ lookup "total_records" d =
       Some (Int (Z.of_nat (Nat.min 100 (List.length (data_log init) + 12))))
    /\ lookup "max_temp" d = Some (Float max_temp)
    /\ lookup "min_temp" d = Some (Float min_temp)
    /\ lookup "max_humidity" d = Some (Float max_humidity)
    /\ lookup "min_humidity" d = Some (Float min_humidity)
    /\ ((15 <=? min_temp) && (max_temp <=? 45))%float = true
    /\ ((20 <=? min_humidity) && (max_humidity <=? 90))%float = true.
Proof.
  apply (monitoring_run_statistics 1 steady_inputs init).
  - lia.
  - constructor.
  - cbn. lia.
Defined.

(** * Beyond the claims: what the settings dialogue touches *)

(** X12.  However the two prompts of the settings branch end, the
    branch switches no device and touches neither the log nor the
    simulated environment.  It prints the title and the two thresholds
    as they are before the change, asks for the temperature threshold
    and, when that prompt returns, for the humidity threshold, and then
    one closing line: the confirmation when both entries are accepted,
    the complaint when an entry is not a number, the farewell after an
    interrupt, the error report after the end of input.  It is not all
    or nothing: a number typed for the temperature becomes the
    temperature threshold even when the humidity entry is then
    refused, whereas the humidity threshold changes only together with
    the confirmation; an exception at a prompt changes nothing.  Only
    an interrupt ends the menu loop. *)
Theorem settings_dialogue_effects (first second : keyboard)
        (c : SmartFarmController) :
  let r := settings_branch first second c in
  (fan_running (settled r) = fan_running c
   /\ pump_running (settled r) = pump_running c
   /\ data_log (settled r) = data_log c
   /\ current_temp (settled r) = current_temp c
   /\ current_humidity (settled r) = current_humidity c)
  /\ dialogue r =
     [ CurrentSettings; TempThresholdIs (temp_threshold c);
       HumidityThresholdIs (humidity_threshold c); AskTemp ]
     ++ match first with Typed _ => [AskHumidity] | _ => [] end
     ++ [closing_line first second]
  /\ temp_threshold (settled r) =
     match first, second with
     | Typed (Number x), Typed _ => x
     | _, _ => temp_threshold c
     end
  /\ humidity_threshold (settled r) =
     match first, second with
     | Typed Garbage, _ => humidity_threshold c
     | Typed _, Typed (Number y) => y
     | _, _ => humidity_threshold c
     end
  /\ menu_continues r =
     match first, second with
     | Interrupt, _ | Typed _, Interrupt => false
     | _, _ => true
     end.
Proof.
  cbv zeta.
  destruct first as [[|x|]| | |], second as [[|y|]| | |];
    repeat split; reflexivity.
Qed.
